(** * BuildLatex: a shallow embedding of [build_latex/__main__.py]

    The program drives three external tools (pandoc, xelatex and a
    bibliography processor) to turn Markdown into a PDF.  The embedding
    follows the Python source function by function:

    - [Posixpath]: the three [os.path] functions the program calls;
    - [Re]: a backtracking matcher for the fragment of Python's [re] that
      [METADATA_REGEX] uses, and [re.sub] with a callable replacement;
    - the top level: the flag record [Flags], the process state [State]
      (the global [FLAGS], the current working directory, the files and the
      list of child processes run so far), a state-and-exception monad [M],
      and the functions [shell_command], [call_pandoc], [process_metadata],
      [convert_to_tex], [build_pdf] and [main].

    Calls to [logging.info] have no effect on any of this and are left out. *)

From Stdlib Require Import Ascii String ZArith Lia.
From stdpp Require Import base strings list gmap.

Local Open Scope Z_scope.

(** Text is a Python [str]; it is kept as a [string] and taken apart as a
    list of characters. *)
Abbreviation text := (list ascii).
Abbreviation chars := list_ascii_of_string.
Abbreviation str := string_of_list_ascii.

Definition NL : string := String "010"%char EmptyString.

(** ** os.path (posixpath) *)

Module Posixpath.

Definition sep : ascii := "/"%char.

Definition is_sep (c : ascii) : bool := Ascii.eqb c sep.

(** [rsplit p] is [(p[:i], p[i:])] for [i = p.rfind('/') + 1]. *)
Fixpoint rsplit (p : text) : text * text :=
  match p with
  | [] => ([], [])
  | c :: p' =>
      match rsplit p' with
      | ([], t) => if is_sep c then ([c], t) else ([], c :: t)
      | (h, t) => (c :: h, t)
      end
  end.

(** [p.rstrip('/')] *)
Fixpoint rstrip (p : text) : text :=
  match p with
  | [] => []
  | c :: p' =>
      match rstrip p' with
      | [] => if is_sep c then [] else [c]
      | r => c :: r
      end
  end.

(** [os.path.basename]: [i = p.rfind(sep) + 1; return p[i:]]. *)
Definition basename (p : string) : string := str (snd (rsplit (chars p))).

(** [os.path.dirname]:
    [head = p[:i]; if head and head != sep*len(head): head = head.rstrip(sep)]. *)
Definition dirname (p : string) : string :=
  let head := fst (rsplit (chars p)) in
  match head with
  | [] => str head
  | _ :: _ => if forallb is_sep head then str head else str (rstrip head)
  end.

Definition startswith_sep (b : string) : bool :=
  match b with String c _ => is_sep c | EmptyString => false end.

Definition endswith_sep (p : string) : bool :=
  match last (chars p) with Some c => is_sep c | None => false end.

(** One turn of the loop of [os.path.join(a, *p)]. *)
Definition join_step (path b : string) : string :=
  if startswith_sep b then b
  else if String.eqb path "" || endswith_sep path then path +:+ b
  else path +:+ "/" +:+ b.

Definition join (a : string) (p : list string) : string :=
  fold_left join_step p a.

End Posixpath.

(** [join_path] passes its arguments on to [os.path.join], whose first
    component is mandatory. *)
Definition join_path (a : string) (p : list string) : string :=
  Posixpath.join a p.

(** ** Command names *)

Definition PANDOC : string := "pandoc".
Definition LATEX : string := "xelatex".
Definition BIBER : string := "biber".
Definition BIBTEX : string := "bibtex".

(** ** Command line flags

    One field per [flags.DEFINE_*]; a flag whose default is [None] is an
    [option].  [filename] is marked as required, so it is a string by the
    time [main] runs. *)

Record Flags := mkFlags {
  pandoc : bool;
  filename : string;
  metadata : option string;
  template : option string;
  part : option (list string);
  part_output : option string;
  simple : option bool;
  standalone : bool;
  bibtex : bool;
  biblatex : bool;
  highlight : bool;
  output_dir : option string;
  pretty : bool;
  thesis : bool;
  markdown_tex : bool
}.

Definition set_output_dir (v : option string) (F : Flags) : Flags :=
  mkFlags (pandoc F) (filename F) (metadata F) (template F) (part F)
    (part_output F) (simple F) (standalone F) (bibtex F) (biblatex F)
    (highlight F) v (pretty F) (thesis F) (markdown_tex F).

Definition set_standalone (v : bool) (F : Flags) : Flags :=
  mkFlags (pandoc F) (filename F) (metadata F) (template F) (part F)
    (part_output F) (simple F) v (bibtex F) (biblatex F)
    (highlight F) (output_dir F) (pretty F) (thesis F) (markdown_tex F).

Definition set_pretty (v : bool) (F : Flags) : Flags :=
  mkFlags (pandoc F) (filename F) (metadata F) (template F) (part F)
    (part_output F) (simple F) (standalone F) (bibtex F) (biblatex F)
    (highlight F) (output_dir F) v (thesis F) (markdown_tex F).

(** Python truth values of the two optional flags tested with a bare [if]. *)
Definition truthy_bool (b : option bool) : bool :=
  match b with Some true => true | _ => false end.

Definition truthy_str (s : option string) : bool :=
  match s with Some (String _ _) => true | _ => false end.

(** ** The fragment of Python's [re] used by the program

    Patterns are kept as the parse tree [sre_parse] builds: literals,
    bracketed sets, greedy and lazy repetition with a lower bound and no
    upper bound, capturing groups and concatenation.  Matching is the
    backtracking search of [sre]: alternatives are tried in priority order
    and the first success wins. *)

Module Re.

Inductive category := CATEGORY_WORD | CATEGORY_SPACE | CATEGORY_NOT_SPACE.

Inductive set_item :=
| SLiteral (c : ascii)
| SRange (lo hi : ascii)
| SCategory (cat : category).

Inductive regex :=
| Empty
| Literal (c : ascii)
| In (items : list set_item)
| MaxRepeat (lo : nat) (r : regex)        (* greedy, no upper bound *)
| MinRepeat (lo : nat) (r : regex)        (* lazy, no upper bound *)
| Subpattern (group : nat) (r : regex)
| Seq (r1 r2 : regex).

(** A run of literal characters. *)
Fixpoint literals (l : text) : regex :=
  match l with
  | [] => Empty
  | c :: l' => Seq (Literal c) (literals l')
  end.

(** Groups that took part in a match, most recent first. *)
Definition captures := list (nat * text).

Fixpoint group (caps : captures) (i : nat) : option text :=
  match caps with
  | [] => None
  | (j, t) :: caps' => if Nat.eqb i j then Some t else group caps' i
  end.

Section Matcher.

(** [str.isalnum] and [str.isspace] on the characters above 127: the
    pattern is a [str] pattern, so [\w] and [\s] follow the Unicode
    database there. *)
Variable unicode_isalnum : ascii -> bool.
Variable unicode_isspace : ascii -> bool.

Definition between (lo hi : nat) (c : ascii) : bool :=
  let n := nat_of_ascii c in Nat.leb lo n && Nat.leb n hi.

Definition is_ascii (c : ascii) : bool := Nat.ltb (nat_of_ascii c) 128.

(** [\w]: alphanumeric or underscore. *)
Definition is_word (c : ascii) : bool :=
  if is_ascii c
  then between 48 57 c || between 65 90 c || between 97 122 c
       || Ascii.eqb c "_"%char
  else unicode_isalnum c.

(** [\s]: tab, newline, vertical tab, form feed, carriage return, the
    four separators 28 to 31 and the space. *)
Definition is_space (c : ascii) : bool :=
  if is_ascii c
  then between 9 13 c || between 28 31 c || Ascii.eqb c " "%char
  else unicode_isspace c.

Definition in_category (cat : category) (c : ascii) : bool :=
  match cat with
  | CATEGORY_WORD => is_word c
  | CATEGORY_SPACE => is_space c
  | CATEGORY_NOT_SPACE => negb (is_space c)
  end.

Definition in_item (it : set_item) (c : ascii) : bool :=
  match it with
  | SLiteral d => Ascii.eqb c d
  | SRange lo hi => between (nat_of_ascii lo) (nat_of_ascii hi) c
  | SCategory cat => in_category cat c
  end.

Definition in_set (items : list set_item) (c : ascii) : bool :=
  existsb (fun it => in_item it c) items.

Section Search.
Context {R : Type}.

(** The continuation receives the rest of the subject and the groups
    closed so far. *)
Definition cont := text -> captures -> option R.

(** The repetition loop.  [body] matches one more copy; [cnt] copies
    are done.  A greedy loop first tries one more copy and falls back
    to leaving the loop; a lazy loop does the reverse.  A copy that
    consumes nothing ends the loop, so [length s] turns suffice. *)
Fixpoint repeat_loop (body : text -> captures -> cont -> option R)
    (greedy : bool) (lo : nat) (k : cont)
    (fuel cnt : nat) (s : text) (caps : captures) : option R :=
  let more (_ : unit) :=
    match fuel with
    | O => None
    | S fuel' =>
        body s caps (fun s' caps' =>
          if Nat.ltb (length s') (length s)
          then repeat_loop body greedy lo k fuel' (S cnt) s' caps'
          else None)
    end in
  let leave (_ : unit) := if Nat.leb lo cnt then k s caps else None in
  if greedy
  then match more tt with Some x => Some x | None => leave tt end
  else match leave tt with Some x => Some x | None => more tt end.

Fixpoint search (r : regex) (s : text) (caps : captures) (k : cont)
    {struct r} : option R :=
  match r with
  | Empty => k s caps
  | Literal c =>
      match s with
      | d :: s' => if Ascii.eqb d c then k s' caps else None
      | [] => None
      end
  | In items =>
      match s with
      | d :: s' => if in_set items d then k s' caps else None
      | [] => None
      end
  | MaxRepeat lo r1 =>
      repeat_loop (search r1) true lo k (length s) 0 s caps
  | MinRepeat lo r1 =>
      repeat_loop (search r1) false lo k (length s) 0 s caps
  | Subpattern i r1 =>
      search r1 s caps (fun s' caps' =>
        k s' ((i, take (length s - length s') s) :: caps'))
  | Seq r1 r2 =>
      search r1 s caps (fun s' caps' => search r2 s' caps' k)
  end.
End Search.

(** [pattern.match] anchored at the start of [s]: the groups and the
    text left after the match. *)
Definition match_here (r : regex) (s : text) : option (captures * text) :=
  search r s [] (fun s' caps => Some (caps, s')).

(** [pattern.sub(repl, s)] with a callable [repl]: scan from the left;
    where the pattern matches, emit the replacement and resume after the
    match; elsewhere copy one character.  [skip] counts the characters
    of the current match still to be passed over.  An empty match emits
    the replacement and copies the character. *)
Fixpoint sub_scan (r : regex) (repl : captures -> text)
    (skip : nat) (s : text) : text :=
  match s with
  | [] =>
      match skip, match_here r [] with
      | O, Some (caps, _) => repl caps
      | _, _ => []
      end
  | c :: s' =>
      match skip with
      | S n => sub_scan r repl n s'
      | O =>
          match match_here r s with
          | Some (caps, rest) =>
              match (length s - length rest)%nat with
              | O => repl caps ++ c :: sub_scan r repl 0 s'
              | S n => repl caps ++ sub_scan r repl n s'
              end
          | None => c :: sub_scan r repl 0 s'
          end
      end
  end.

Definition sub (r : regex) (repl : captures -> text) (s : text) : text :=
  sub_scan r repl 0 s.

End Matcher.

End Re.

(** ** The annotation pattern of [process_metadata]

    The Python literal denotes the pattern
    [\\codeMetadata\[([a-zA-Z0-9:]+)\]{([\w\(\):\. ]+)}[\s\n]+(\\begin{Shaded}[\s\S]*?\\end{Shaded})];
    the braces are literal, as none of them starts a valid repetition. *)

Definition LABEL_SET : list Re.set_item :=
  [Re.SRange "a" "z"; Re.SRange "A" "Z"; Re.SRange "0" "9"; Re.SLiteral ":"]%char.

Definition CAPTION_SET : list Re.set_item :=
  [Re.SCategory Re.CATEGORY_WORD; Re.SLiteral "("; Re.SLiteral ")";
   Re.SLiteral ":"; Re.SLiteral "."; Re.SLiteral " "]%char.

Definition GAP_SET : list Re.set_item :=
  [Re.SCategory Re.CATEGORY_SPACE; Re.SLiteral "010"]%char.

Definition ANY_SET : list Re.set_item :=
  [Re.SCategory Re.CATEGORY_SPACE; Re.SCategory Re.CATEGORY_NOT_SPACE].

Definition SHADED_PATTERN : Re.regex :=
  Re.Seq (Re.literals (chars "\begin{Shaded}"))
    (Re.Seq (Re.MinRepeat 0 (Re.In ANY_SET))
       (Re.literals (chars "\end{Shaded}"))).

Definition METADATA_REGEX : Re.regex :=
  Re.Seq (Re.literals (chars "\codeMetadata["))
    (Re.Seq (Re.Subpattern 1 (Re.MaxRepeat 1 (Re.In LABEL_SET)))
       (Re.Seq (Re.literals (chars "]{"))
          (Re.Seq (Re.Subpattern 2 (Re.MaxRepeat 1 (Re.In CAPTION_SET)))
             (Re.Seq (Re.Literal "}")
                (Re.Seq (Re.MaxRepeat 1 (Re.In GAP_SET))
                   (Re.Subpattern 3 SHADED_PATTERN)))))).

(** [REPLACEMENT % (a, b, c)]: the template has three [%s] holes. *)
Definition REPLACEMENT (a b c : string) : string :=
  NL +:+ "    \begin{listing}" +:+ NL +:+
  "    " +:+ a +:+ "\label{" +:+ b +:+ "}" +:+ NL +:+
  "    \caption{" +:+ c +:+ "}" +:+ NL +:+
  "    \end{listing}" +:+ NL +:+
  "    ".

(** [match[i]] as [%s] prints it: a group that took no part is [None]. *)
Definition percent_s (g : option text) : string :=
  match g with Some t => str t | None => "None" end.

(** The callable handed to [sub]:
    [lambda match: REPLACEMENT % (match[3], match[1], match[2])]. *)
Definition replacement_of (m : Re.captures) : text :=
  chars (REPLACEMENT (percent_s (Re.group m 3)) (percent_s (Re.group m 1))
           (percent_s (Re.group m 2))).

(** ** Process state, exceptions and the monad of the program *)

Inductive Exn :=
| CalledProcessError (returncode : Z) (cmd : list string)
| FileNotFoundError (path : string).

(** What a child process did: its exit status, what it printed and the
    files it left behind. *)
Record Completed := mkCompleted {
  returncode : Z;
  stdout : string;
  files_after : gmap string string
}.

(** A child process that ran to completion. *)
Record Event := Exec {
  argv : list string;
  exec_cwd : string;
  exit_status : Z
}.

Record State := mkState {
  FLAGS : Flags;
  os_cwd : string;
  files : gmap string string;
  children : list Event
}.

Inductive result (A : Type) :=
| Raised (e : Exn)
| Returned (a : A).
Arguments Raised {A} e.
Arguments Returned {A} a.

Definition M (A : Type) : Type := State -> result A * State.

#[global] Instance M_ret : MRet M := fun A a st => (Returned a, st).

#[global] Instance M_bind : MBind M := fun A B f m st =>
  match m st with
  | (Returned a, st') => f a st'
  | (Raised e, st') => (Raised e, st')
  end.

Definition raise {A} (e : Exn) : M A := fun st => (Raised e, st).

Definition get_flags : M Flags := fun st => (Returned (FLAGS st), st).

Definition modify_flags (f : Flags -> Flags) : M unit := fun st =>
  (Returned tt, mkState (f (FLAGS st)) (os_cwd st) (files st) (children st)).

(** [os.getcwd()] *)
Definition os_getcwd : M string := fun st => (Returned (os_cwd st), st).

(** [os.chdir(d)]: a relative [d] is resolved against the current
    directory; the directory is taken to exist and names are not
    normalised. *)
Definition os_chdir (d : string) : M unit := fun st =>
  (Returned tt,
   mkState (FLAGS st) (join_path (os_cwd st) [d]) (files st) (children st)).

(** [open(path, "r").read()].  The file is taken to hold text that a
    text-mode read gives back as it is stored: decoding errors and the
    translation of carriage returns are outside the model. *)
Definition read_file (path : string) : M string := fun st =>
  match files st !! path with
  | Some content => (Returned content, st)
  | None => (Raised (FileNotFoundError path), st)
  end.

(** [open(path, "w").write(content)] *)
Definition write_file (path content : string) : M unit := fun st =>
  (Returned tt,
   mkState (FLAGS st) (os_cwd st) (<[path := content]> (files st))
     (children st)).

Fixpoint for_each {A} (l : list A) (body : A -> M unit) : M unit :=
  match l with
  | [] => mret tt
  | x :: l' => body x;; for_each l' body
  end.

(** The commands of the children run between two states. *)
Definition commands (evs : list Event) : list (list string) := map argv evs.

(** Number of runs of a given program among some commands. *)
Definition invocations (prog : string) (cmds : list (list string)) : nat :=
  length (filter (fun cmd => head cmd = Some prog) cmds).

(** ** Sample surroundings used to run the program on concrete inputs *)

(** Every child exits with [rc], prints nothing and touches no file. *)
Definition exit_with (rc : Z) (cmd : list string) (cwd : string)
    (fs : gmap string string) : Completed :=
  mkCompleted rc "" fs.

(** [pandoc] exits with status 1, every other program with 0. *)
Definition pandoc_fails (cmd : list string) (cwd : string)
    (fs : gmap string string) : Completed :=
  mkCompleted (if decide (head cmd = Some PANDOC) then 1 else 0) "" fs.

Definition no_unicode (c : ascii) : bool := false.

Definition default_flags (name : string) : Flags :=
  mkFlags true name None None None None None false false false false None
    false false true.

Definition initial_state (F : Flags) : State :=
  mkState F "/home/user" ∅ [].

(** The defaults with [bibtex] switched on. *)
Definition bibliography_flags (name : string) : Flags :=
  mkFlags true name None None None None None false true false false None
    false false true.

(** [--simple --thesis] on a file in a subdirectory. *)
Definition simple_thesis_flags : Flags :=
  mkFlags true "docs/report" None None None None (Some true) false false false
    false None false true true.

(** [--part a --part b] next to the file [main]. *)
Definition parts_flags : Flags :=
  mkFlags true "main" None None (Some ["a"; "b"]) None None false false false
    false None false false true.

(** One part in a subdirectory, with [--part_output out]. *)
Definition part_output_flags : Flags :=
  mkFlags true "main" None None (Some ["chapters/a"]) (Some "out") None false
    false false false None false false true.

(** The defaults with [bibtex] and [biblatex] switched on. *)
Definition bibtex_flags (name : string) : Flags :=
  mkFlags true name None None None None None false true true false None
    false false true.

(** The defaults with [pandoc] switched off. *)
Definition no_pandoc_flags (name : string) : Flags :=
  mkFlags false name None None None None None false false false false None
    false false true.

(** Two parts with [pandoc] switched off. *)
Definition parts_no_pandoc_flags : Flags :=
  mkFlags false "main" None None (Some ["a"; "b"]) None None false false false
    false None false false true.

(** [--part chapters/a --part_output out/]. *)
Definition trailing_part_output_flags : Flags :=
  mkFlags true "main" None None (Some ["chapters/a"]) (Some "out/") None false
    false false false None false false true.

(** The defaults with [simple] switched on. *)
Definition simple_flags (name : string) : Flags :=
  mkFlags true name None None None None (Some true) false false false false
    None false false true.

(** The defaults with [highlight] switched on. *)
Definition highlight_flags : Flags :=
  mkFlags true "main" None None None None None false false false true None
    false false true.

(** Every child exits with status 0 and leaves [content] in the file
    [path]. *)
Definition pandoc_writes (path content : string) (cmd : list string)
    (cwd : string) (fs : gmap string string) : Completed :=
  mkCompleted 0 "" (<[path := content]> fs).

(** ** The program *)

Section Program.

(** [os.path.abspath(os.path.dirname(__file__))]: where the program is
    installed. *)
Variable ROOT_DIRECTORY : string.

(** The operating system running a command to completion, given its
    argument vector, the current directory and the files. *)
Variable os_exec : list string -> string -> gmap string string -> Completed.

(** The Unicode database above character 127 (see [Re]). *)
Variable unicode_isalnum : ascii -> bool.
Variable unicode_isspace : ascii -> bool.

Definition THIRD_PARTY_DIRECTORY : string :=
  join_path ROOT_DIRECTORY ["third_party"].

(** *** subprocess *)

(** One child run to completion.  The program is taken to start: a child
    that cannot be launched is outside the model. *)
Definition run_child (cmd : list string) : M Completed := fun st =>
  let done := os_exec cmd (os_cwd st) (files st) in
  (Returned done,
   mkState (FLAGS st) (os_cwd st) (files_after done)
     (children st ++ [Exec cmd (os_cwd st) (returncode done)])).

(** [subprocess.call(cmd)] *)
Definition subprocess_call (cmd : list string) : M Z :=
  done ← run_child cmd; mret (returncode done).

(** [subprocess.check_call(cmd)] *)
Definition subprocess_check_call (cmd : list string) : M unit :=
  rc ← subprocess_call cmd;
  if rc =? 0 then mret tt else raise (CalledProcessError rc cmd).

(** [subprocess.check_output(cmd)] *)
Definition subprocess_check_output (cmd : list string) : M string :=
  done ← run_child cmd;
  if returncode done =? 0 then mret (stdout done)
  else raise (CalledProcessError (returncode done) cmd).

(** [p = subprocess.Popen(cmd, shell=True); p.wait()]: with a list, the
    items are appended to [/bin/sh -c]; the status is returned, not
    checked. *)
Definition subprocess_Popen_shell_wait (cmd : list string) : M Z :=
  done ← run_child (["/bin/sh"; "-c"] ++ cmd); mret (returncode done).

(** *** shell_command *)

Definition shell_command (cmd : list string) (throw output shell : bool)
    (cwd : option string) : M (option string) :=
  last_cwd ← os_getcwd;
  match cwd with Some d => os_chdir d | None => mret tt end;;
  let rest : M (option string) :=
    match cwd with Some _ => os_chdir last_cwd | None => mret tt end;;
    mret None in
  if throw then
    if output then
      out ← subprocess_check_output cmd; mret (Some out)
    else if shell then
      subprocess_Popen_shell_wait cmd;; rest
    else
      subprocess_check_call cmd;; rest
  else
    subprocess_call cmd;; rest.

(** [shell_command(cmd)] with every keyword left at its default. *)
Definition shell_command_default (cmd : list string) : M (option string) :=
  shell_command cmd true false false None.

(** *** call_pandoc *)

Definition call_pandoc (filename output_filename output_type : string)
    (args : list string) : M unit :=
  F ← get_flags;
  let input_type := if markdown_tex F then "markdown" else "markdown-raw_tex" in
  let pandoc_command :=
    [PANDOC] ++ args ++
    ["-f"; input_type; "-t"; output_type; "-o"; output_filename; filename] in
  shell_command_default pandoc_command;; mret tt.

(** *** process_metadata *)

Definition METADATA_sub (file_content : string) : string :=
  str (Re.sub unicode_isalnum unicode_isspace METADATA_REGEX replacement_of
         (chars file_content)).

Definition process_metadata (filename : string) : M unit :=
  file_content ← read_file filename;
  let new_content := METADATA_sub file_content in
  write_file filename new_content.

(** *** convert_to_tex *)

(** The name of the file pandoc writes. *)
Definition tex_filename_of (F : Flags) (filename : string) : string :=
  if truthy_str (part_output F)
  then default "" (part_output F) +:+ Posixpath.basename filename +:+ ".tex"
  else filename +:+ ".tex".

(** The list [pandoc_args] as the successive [+=] build it. *)
Definition pandoc_args_of (F : Flags) : list string :=
  let pandoc_args := [] in
  let pandoc_args := pandoc_args ++ ["--verbose"] in
  let pandoc_args :=
    if standalone F then pandoc_args ++ ["--standalone"] else pandoc_args in
  let pandoc_args :=
    if bibtex F then
      (pandoc_args ++ ["--biblatex"])
        ++ ["--csl"; join_path THIRD_PARTY_DIRECTORY ["ieee.csl"]]
    else pandoc_args in
  let pandoc_args :=
    if thesis F then
      let pandoc_args :=
        pandoc_args ++ ["-V"; "geometry:margin=20mm";
                        "-V"; "mainfont:Times New Roman";
                        "-V"; "papersize:a4";
                        "-V"; "classoption:12pt"] in
      match template F with
      | None =>
          pandoc_args
            ++ ["--template"; join_path ROOT_DIRECTORY ["thesis-template.tex"]]
      | Some _ => pandoc_args
      end
    else pandoc_args in
  let pandoc_args :=
    match template F with
    | Some t => pandoc_args ++ ["--template"; t]
    | None => pandoc_args
    end in
  let pandoc_args :=
    match metadata F with
    | Some m => pandoc_args ++ ["--metadata-file"; m]
    | None => pandoc_args
    end in
  let pandoc_args :=
    if highlight F then
      pandoc_args
        ++ ["--syntax-definition";
            join_path THIRD_PARTY_DIRECTORY ["typescript.xml"];
            "--highlight=tango"]
    else pandoc_args in
  let pandoc_args :=
    if pretty F then
      pandoc_args ++ ["-V"; "geometry:margin=2cm";
                      "-V"; "mainfont:Roboto";
                      "-V"; "papersize:a4"]
    else pandoc_args in
  pandoc_args.

Definition convert_to_tex (filename : string) : M unit :=
  F ← get_flags;
  let tex_filename := tex_filename_of F filename in
  let md_filename := filename +:+ ".md" in
  call_pandoc md_filename tex_filename "latex" (pandoc_args_of F);;
  if highlight F then process_metadata tex_filename else mret tt.

(** *** build_pdf *)

Definition latex_args_of (F : Flags) : list string :=
  let latex_args := [] in
  let latex_args :=
    match output_dir F with
    | Some d => latex_args ++ ["-output-directory=" +:+ d]
    | None => latex_args
    end in
  latex_args ++ ["-interaction=nonstopmode"].

Definition build_pdf (filename : string) : M unit :=
  F ← get_flags;
  let tex_filename := filename +:+ ".tex" in
  let latex_args := latex_args_of F in
  shell_command_default ([LATEX] ++ latex_args ++ [tex_filename]);;
  (if bibtex F then
     (if biblatex F then shell_command_default [BIBTEX; filename]
      else shell_command_default [BIBER; filename]);;
     shell_command_default ([LATEX] ++ latex_args ++ [tex_filename]);;
     mret tt
   else mret tt);;
  shell_command_default ([LATEX] ++ latex_args ++ [tex_filename]);;
  mret tt.

(** *** main *)

(** The [if FLAGS.simple:] block. *)
Definition simple_settings : M unit :=
  F ← get_flags;
  if truthy_bool (simple F) then
    modify_flags (set_output_dir (Some (Posixpath.dirname (filename F))));;
    modify_flags (set_standalone true);;
    F ← get_flags;
    if negb (thesis F) then modify_flags (set_pretty true) else mret tt
  else mret tt.

(** The [if FLAGS.part ... else ...] block. *)
Definition conversions : M unit :=
  F ← get_flags;
  match part F with
  | Some (p :: ps) => for_each (p :: ps) convert_to_tex
  | _ => if pandoc F then convert_to_tex (filename F) else mret tt
  end.

Definition main : M unit :=
  simple_settings;;
  conversions;;
  F ← get_flags;
  build_pdf (filename F).

(** ** Vocabulary of the statements *)

(** The one command [convert_to_tex target] runs. *)
Definition pandoc_command_of (F : Flags) (target : string) : list string :=
  [PANDOC] ++ pandoc_args_of F ++
  ["-f"; if markdown_tex F then "markdown" else "markdown-raw_tex";
   "-t"; "latex"; "-o"; tex_filename_of F target; target +:+ ".md"].

(** The typesetting command of [build_pdf]. *)
Definition latex_command_of (F : Flags) (filename : string) : list string :=
  [LATEX] ++ latex_args_of F ++ [filename +:+ ".tex"].

(** The bibliography command of [build_pdf]. *)
Definition bibliography_command_of (F : Flags) (filename : string)
    : list string :=
  if biblatex F then [BIBTEX; filename] else [BIBER; filename].

(** The commands of a [build_pdf] that runs to its end. *)
Definition typeset_commands (F : Flags) (filename : string)
    : list (list string) :=
  if bibtex F then
    [latex_command_of F filename; bibliography_command_of F filename;
     latex_command_of F filename; latex_command_of F filename]
  else [latex_command_of F filename; latex_command_of F filename].

(** The flags [main] works with once [simple_settings] is done. *)
Definition derived_flags (st : State) : Flags :=
  FLAGS (snd (simple_settings st)).

(** [s.startswith(needle)] and the positions at which [needle] occurs. *)
Fixpoint starts_with (needle s : text) : bool :=
  match needle, s with
  | [], _ => true
  | c :: needle', d :: s' => Ascii.eqb c d && starts_with needle' s'
  | _ :: _, [] => false
  end.

Fixpoint occurrences_from (needle : text) (i : nat) (s : text) : list nat :=
  (if starts_with needle s then [i] else []) ++
  match s with
  | [] => []
  | _ :: s' => occurrences_from needle (S i) s'
  end.

Definition occurrences (needle s : string) : list nat :=
  occurrences_from (chars needle) 0 (chars s).

(** An annotation followed by a Shaded block. *)
Definition annotated_block (label caption gap body : string) : string :=
  "\codeMetadata[" +:+ label +:+ "]{" +:+ caption +:+ "}" +:+ gap +:+
  "\begin{Shaded}" +:+ body +:+ "\end{Shaded}".

Definition has_char_outside (items : list Re.set_item) (s : string) : bool :=
  existsb (fun c => negb (Re.in_set unicode_isalnum unicode_isspace items c))
    (chars s).

Definition contains_char (c : ascii) (s : string) : bool :=
  existsb (Ascii.eqb c) (chars s).

(** Text that a text-mode read gives back as it is stored, whatever the
    locale: ASCII characters only and no carriage return, so that neither
    decoding nor the translation of line ends changes or refuses it. *)
Definition plain_ascii (s : string) : bool :=
  forallb (fun c => Re.is_ascii c && negb (Ascii.eqb c "013"%char)) (chars s).

(** Between [st] and [st'] the flags and the directory are the same and
    the children run are [cmds], in that order. *)
Definition ran (st st' : State) (cmds : list (list string)) : Prop :=
  FLAGS st' = FLAGS st /\ os_cwd st' = os_cwd st /\
  exists evs, children st' = children st ++ evs /\ commands evs = cmds.

(** Run some commands in order with [shell_command]'s defaults; the first
    failure ends the run. *)
Definition run_all (cmds : list (list string)) : M unit :=
  for_each cmds (fun cmd => shell_command_default cmd;; mret tt).

(** The commands of a [conversions] that runs to its end. *)
Definition conversion_commands (F : Flags) : list (list string) :=
  match part F with
  | Some (p :: ps) => map (pandoc_command_of F) (p :: ps)
  | _ => if pandoc F then [pandoc_command_of F (filename F)] else []
  end.

(** Every child of [evs] exited with status 0. *)
Definition clean (evs : list Event) : Prop :=
  Forall (fun ev => exit_status ev = 0) evs.

(** The children [evs] all ran in [dir]; they all succeeded, unless the
    outcome is a [CalledProcessError], in which case the last one is the
    command of the exception, with its non-zero status, and the ones before
    it succeeded. *)
Definition orderly {A} (dir : string) (evs : list Event) (r : result A) : Prop :=
  Forall (fun ev => exec_cwd ev = dir) evs /\
  match r with
  | Raised (CalledProcessError rc cmd) =>
      exists evs0, evs = evs0 ++ [Exec cmd dir rc] /\ clean evs0 /\ rc <> 0
  | _ => clean evs
  end.

(** A computation that leaves the flags and the directory alone and whose
    children are orderly. *)
Definition tidy {A} (m : M A) : Prop :=
  forall st r st', m st = (r, st') ->
    exists evs, children st' = children st ++ evs /\
      os_cwd st' = os_cwd st /\ FLAGS st' = FLAGS st /\
      orderly (os_cwd st) evs r.

(** * Properties *)

(** ** How the monad and [shell_command] run *)

Ltac unfold_M :=
  unfold mbind, M_bind, mret, M_ret, raise, get_flags, modify_flags,
    os_getcwd, os_chdir.

(** [shell_command(cmd)] with the defaults runs one child in the current
    directory and raises exactly when its status is not zero. *)
Lemma shell_command_default_run (cmd : list string) (st : State) :
  let done := os_exec cmd (os_cwd st) (files st) in
  let st' := mkState (FLAGS st) (os_cwd st) (files_after done)
               (children st ++ [Exec cmd (os_cwd st) (returncode done)]) in
  shell_command_default cmd st =
    if returncode done =? 0 then (Returned None, st')
    else (Raised (CalledProcessError (returncode done) cmd), st').
Proof.
  unfold shell_command_default, shell_command, subprocess_check_call,
    subprocess_call, run_child.
  unfold_M. simpl.
  destruct (returncode (os_exec cmd (os_cwd st) (files st)) =? 0); reflexivity.
Qed.

Lemma bind_inv {A B} (m : M A) (f : A -> M B) st r st' :
  (m ≫= f) st = (r, st') ->
  (exists e, m st = (Raised e, st') /\ r = Raised e) \/
  (exists a st1, m st = (Returned a, st1) /\ f a st1 = (r, st')).
Proof.
  unfold mbind, M_bind. destruct (m st) as [[e|a] st1]; intros H.
  - left. exists e. by inversion H.
  - right. eauto.
Qed.

Lemma ran_refl st : ran st st [].
Proof. repeat split. exists []. split; [by rewrite app_nil_r | done]. Qed.

Lemma ran_trans st1 st2 st3 c1 c2 :
  ran st1 st2 c1 -> ran st2 st3 c2 -> ran st1 st3 (c1 ++ c2).
Proof.
  intros (HF1 & Hc1 & evs1 & He1 & Hm1) (HF2 & Hc2 & evs2 & He2 & Hm2).
  repeat split; try congruence.
  exists (evs1 ++ evs2). split.
  - rewrite He2, He1. by rewrite app_assoc.
  - unfold commands in *. rewrite map_app. congruence.
Qed.

Lemma shell_command_default_ran cmd st r st' :
  shell_command_default cmd st = (r, st') ->
  ran st st' [cmd] /\
  (r = Returned None \/
   exists rc, rc <> 0 /\ r = Raised (CalledProcessError rc cmd)).
Proof.
  rewrite shell_command_default_run. cbv zeta.
  destruct (_ =? 0) eqn:Hrc; intros [= <- <-]; (split; [repeat split; simpl; eauto|]).
  - by left.
  - right. eexists. split; [|reflexivity]. by apply Z.eqb_neq.
Qed.

Lemma build_pdf_run_all fname st :
  build_pdf fname st = run_all (typeset_commands (FLAGS st) fname) st.
Proof.
  unfold build_pdf, run_all, typeset_commands, bibliography_command_of,
    latex_command_of.
  cbv beta iota zeta delta [mbind M_bind mret M_ret get_flags for_each].
  destruct (bibtex (FLAGS st)), (biblatex (FLAGS st)); cbv beta iota;
    repeat match goal with
      | |- context [shell_command_default ?c ?s] =>
          destruct (shell_command_default c s) as [[?|?] ?]; cbv beta iota
      end; reflexivity.
Qed.

Lemma run_all_ran cmds st r st' :
  run_all cmds st = (r, st') ->
  exists n, ran st st' (take n cmds) /\
    (r = Returned tt -> take n cmds = cmds) /\
    (forall e, r = Raised e ->
       exists rc cmd, e = CalledProcessError rc cmd /\ cmd ∈ cmds /\ rc <> 0).
Proof.
  revert st. induction cmds as [|cmd cmds IH]; intros st H.
  - inversion H; subst. exists 0%nat. split; [apply ran_refl|]. split; [done|discriminate].
  - unfold run_all in H. simpl in H.
    apply bind_inv in H as [(e & H & ->) | ([] & st1 & H & H2)].
    + apply bind_inv in H as [(e' & H & [= ->]) | (a & st2 & H & H2)]; [|discriminate].
      apply shell_command_default_ran in H as [Hran [?|(rc & Hrc & [= ->])]]; [discriminate|].
      exists 1%nat. split; [done|]. split; [discriminate|].
      intros ? [= <-]. exists rc, cmd. split; [done|]. split; [left|done].
    + apply bind_inv in H as [(e' & H & ?) | (a & st2 & H & [= <-])]; [discriminate|].
      apply shell_command_default_ran in H as [Hran _].
      apply IH in H2 as (n & Hran2 & Hret & Hexn).
      exists (S n). split; [apply (ran_trans _ _ _ [cmd] _ Hran Hran2)|].
      split.
      * intros Hr. simpl. by rewrite Hret.
      * intros e He. destruct (Hexn e He) as (rc & c & -> & Hin & Hrc).
        exists rc, c. split; [done|]. split; [by right|done].
Qed.

(** When every child exits with status 0, [run_all] runs to its end. *)
Lemma run_all_returns cmds st :
  (forall cmd cwd fs, returncode (os_exec cmd cwd fs) = 0) ->
  exists st', run_all cmds st = (Returned tt, st').
Proof.
  intros Hok. revert st. induction cmds as [|cmd cmds IH]; intros st.
  - by exists st.
  - unfold run_all. simpl. unfold mbind, M_bind.
    rewrite shell_command_default_run. cbv zeta. rewrite Hok. simpl.
    apply IH.
Qed.

(** When every child exits with status 0, [build_pdf] returns. *)
Lemma build_pdf_returns fname st :
  (forall cmd cwd fs, returncode (os_exec cmd cwd fs) = 0) ->
  exists st', build_pdf fname st = (Returned tt, st').
Proof. intros Hok. rewrite build_pdf_run_all. by apply run_all_returns. Qed.

(** ** The typeset step *)

(** C1, as amended: a [build_pdf] that runs to its end has run the
    typesetting engine twice when [bibtex] is off, and the engine, biber,
    the engine and the engine again when [bibtex] is on and [biblatex] is
    off: three engine runs and one biber run, in that order. *)
Theorem build_pdf_invocations (fname : string) (st st' : State) :
  build_pdf fname st = (Returned tt, st') ->
  let F := FLAGS st in
  let engine := [LATEX] ++ latex_args_of F ++ [fname +:+ ".tex"] in
  exists evs, children st' = children st ++ evs /\
    (bibtex F = false ->
       commands evs = [engine; engine] /\
       invocations LATEX (commands evs) = 2%nat /\
       invocations BIBER (commands evs) = 0%nat) /\
    (bibtex F = true -> biblatex F = false ->
       commands evs = [engine; [BIBER; fname]; engine; engine] /\
       invocations LATEX (commands evs) = 3%nat /\
       invocations BIBER (commands evs) = 1%nat).
Proof.
  intros H F engine. rewrite build_pdf_run_all in H.
  apply run_all_ran in H as (n & (_ & _ & evs & Hev & Hcmds) & Hret & _).
  rewrite (Hret eq_refl) in Hcmds. exists evs. split; [done|].
  rewrite Hcmds. unfold typeset_commands, bibliography_command_of,
    latex_command_of. fold F. fold engine.
  split.
  - intros ->. done.
  - intros -> ->. done.
Qed.

(** ** The process runner *)

(** X2.  Where [shell_command] gets as far as its last lines, the
    directory is put back: a call with [output=False] that returns, made
    from a directory with an absolute name, ends in the directory it
    started in, whatever [cwd] was. *)
Lemma shell_command_returns_restores cmd throw shell cwd st out st' :
  Posixpath.startswith_sep (os_cwd st) = true ->
  shell_command cmd throw false shell cwd st = (Returned out, st') ->
  os_cwd st' = os_cwd st.
Proof.
  intros Habs. unfold shell_command, subprocess_Popen_shell_wait,
    subprocess_check_call, subprocess_call, run_child.
  cbv beta iota zeta delta [mbind M_bind mret M_ret raise os_getcwd].
  destruct cwd as [d|]; cbv beta iota delta [os_chdir];
    destruct throw, shell; cbv beta iota; simpl;
    repeat match goal with
      | |- context [if ?b then _ else _] => destruct b; simpl
      end;
    intros [= <- <-]; simpl; try reflexivity;
    unfold join_path, Posixpath.join; simpl;
    unfold Posixpath.join_step; by rewrite Habs.
Qed.

(** Where the child fails, the exception leaves [shell_command] before its
    last lines: the process stays in the directory it changed to. *)
Lemma shell_command_raises_keeps_cwd cmd d st :
  let dir := join_path (os_cwd st) [d] in
  returncode (os_exec cmd dir (files st)) <> 0 ->
  exists st',
    shell_command cmd true false false (Some d) st =
      (Raised (CalledProcessError (returncode (os_exec cmd dir (files st))) cmd),
       st') /\
    os_cwd st' = dir.
Proof.
  intros dir Hrc. apply Z.eqb_neq in Hrc.
  unfold shell_command, subprocess_check_call, subprocess_call, run_child.
  cbv beta iota zeta delta [mbind M_bind mret M_ret raise os_getcwd os_chdir].
  cbn [os_cwd files]. fold dir. rewrite Hrc. eauto.
Qed.

(** C8, as amended.  With [shell=True] and [output=False] the call returns
    whatever the exit status and whatever [throw]; exactly one child is
    run: the command handed to [/bin/sh -c] when [throw] is true, the
    command itself, without a shell, when [throw] is false.  With
    [shell=False] and [throw=True] a non-zero status raises
    [CalledProcessError] with that status and command. *)
Theorem shell_flag_never_raises (cmd : list string) (throw : bool)
    (cwd : option string) (st : State) :
  let dir := match cwd with
             | Some d => join_path (os_cwd st) [d]
             | None => os_cwd st
             end in
  (exists st' rc,
     shell_command cmd throw false true cwd st = (Returned None, st') /\
     children st' =
       children st ++
       [Exec (if throw then ["/bin/sh"; "-c"] ++ cmd else cmd) dir rc]) /\
  (forall output : bool,
     returncode (os_exec cmd dir (files st)) <> 0 ->
     exists st',
       shell_command cmd true output false cwd st =
         (Raised (CalledProcessError
                    (returncode (os_exec cmd dir (files st))) cmd), st')).
Proof.
  intros dir. split.
  - unfold shell_command, subprocess_Popen_shell_wait, subprocess_call,
      run_child.
    cbv beta iota zeta delta [mbind M_bind mret M_ret raise os_getcwd os_chdir].
    destruct cwd as [d|], throw; simpl; eauto.
  - intros output Hrc. apply Z.eqb_neq in Hrc.
    unfold shell_command, subprocess_check_output, subprocess_check_call,
      subprocess_call, run_child.
    subst dir.
    destruct cwd as [d|], output;
      cbv beta iota zeta delta [mbind M_bind mret M_ret raise os_getcwd os_chdir];
      cbn [os_cwd files]; rewrite Hrc; eauto.
Qed.

(** ** The derived settings *)

(** C5.  With [simple] set, [simple_settings] returns with [standalone]
    on, [output_dir] the directory of [filename], and [pretty] on unless
    [thesis] is set, in which case [pretty] keeps its value; every other
    flag, the directory, the files and the children are as before. *)
Theorem simple_settings_derivation (st : State) :
  simple (FLAGS st) = Some true ->
  exists st', simple_settings st = (Returned tt, st') /\
    let F := FLAGS st in
    let F' := FLAGS st' in
    standalone F' = true /\
    output_dir F' = Some (Posixpath.dirname (filename F)) /\
    pretty F' = (if thesis F then pretty F else true) /\
    pandoc F' = pandoc F /\ filename F' = filename F /\
    metadata F' = metadata F /\ template F' = template F /\
    part F' = part F /\ part_output F' = part_output F /\
    simple F' = simple F /\ bibtex F' = bibtex F /\
    biblatex F' = biblatex F /\ highlight F' = highlight F /\
    thesis F' = thesis F /\ markdown_tex F' = markdown_tex F /\
    os_cwd st' = os_cwd st /\ files st' = files st /\
    children st' = children st.
Proof.
  intros Hs. unfold simple_settings.
  cbv beta iota zeta delta [mbind M_bind mret M_ret get_flags modify_flags].
  rewrite Hs. cbn [truthy_bool FLAGS set_standalone set_output_dir thesis].
  destruct (thesis (FLAGS st)) eqn:Ht; cbn [negb]; eexists; (split; [reflexivity|]);
    cbn; rewrite ?Ht; repeat split; congruence.
Qed.

(** Without [simple], the flags are left alone. *)
Lemma simple_settings_off st :
  truthy_bool (simple (FLAGS st)) = false ->
  simple_settings st = (Returned tt, st).
Proof.
  intros Hs. unfold simple_settings.
  cbv beta iota zeta delta [mbind M_bind mret M_ret get_flags]. by rewrite Hs.
Qed.

Lemma simple_settings_returns st :
  simple_settings st = (Returned tt, snd (simple_settings st)) /\
  os_cwd (snd (simple_settings st)) = os_cwd st /\
  files (snd (simple_settings st)) = files st /\
  children (snd (simple_settings st)) = children st /\
  filename (FLAGS (snd (simple_settings st))) = filename (FLAGS st) /\
  part (FLAGS (snd (simple_settings st))) = part (FLAGS st) /\
  pandoc (FLAGS (snd (simple_settings st))) = pandoc (FLAGS st).
Proof.
  unfold simple_settings.
  cbv beta iota zeta delta [mbind M_bind mret M_ret get_flags modify_flags].
  destruct (truthy_bool (simple (FLAGS st))); [|done].
  cbn [FLAGS set_standalone set_output_dir thesis].
  by destruct (thesis (FLAGS st)).
Qed.

(** ** The converter arguments *)

(** C6.  The arguments depend on the flags alone, through [standalone],
    [bibtex], [thesis], [template], [metadata], [highlight] and [pretty],
    and come in this order: the verbosity flag; the standalone flag; the
    bibliography engine and citation style; the thesis typography, with
    the bundled thesis template only when no template is given; the
    template; the metadata file; the syntax definition and highlighting
    style; the pretty typography. *)
Theorem pandoc_args_order (F : Flags) :
  pandoc_args_of F =
    ["--verbose"]
    ++ (if standalone F then ["--standalone"] else [])
    ++ (if bibtex F
        then ["--biblatex"; "--csl";
              join_path THIRD_PARTY_DIRECTORY ["ieee.csl"]]
        else [])
    ++ (if thesis F
        then ["-V"; "geometry:margin=20mm"; "-V"; "mainfont:Times New Roman";
              "-V"; "papersize:a4"; "-V"; "classoption:12pt"]
             ++ match template F with
                | None => ["--template";
                           join_path ROOT_DIRECTORY ["thesis-template.tex"]]
                | Some _ => []
                end
        else [])
    ++ match template F with Some t => ["--template"; t] | None => [] end
    ++ match metadata F with Some m => ["--metadata-file"; m] | None => [] end
    ++ (if highlight F
        then ["--syntax-definition";
              join_path THIRD_PARTY_DIRECTORY ["typescript.xml"];
              "--highlight=tango"]
        else [])
    ++ (if pretty F
        then ["-V"; "geometry:margin=2cm"; "-V"; "mainfont:Roboto";
              "-V"; "papersize:a4"]
        else []).
Proof.
  unfold pandoc_args_of. cbv zeta.
  destruct (standalone F), (bibtex F), (thesis F), (template F),
    (metadata F), (highlight F), (pretty F); reflexivity.
Qed.

(** ** The conversion step *)

(** [convert_to_tex] runs its one pandoc command whatever the outcome, and
    leaves the flags and the directory alone.  It raises when pandoc exits
    with a non-zero status, or when the file to rewrite is not there. *)
Lemma convert_to_tex_ran target st r st' :
  convert_to_tex target st = (r, st') ->
  ran st st' [pandoc_command_of (FLAGS st) target] /\
  (forall e, r = Raised e ->
     (exists rc, rc <> 0 /\
        e = CalledProcessError rc (pandoc_command_of (FLAGS st) target)) \/
     e = FileNotFoundError (tex_filename_of (FLAGS st) target)) /\
  (r = Returned tt -> highlight (FLAGS st) = true ->
     is_Some (files st' !! tex_filename_of (FLAGS st) target)).
Proof.
  unfold convert_to_tex, call_pandoc. fold (pandoc_command_of (FLAGS st) target).
  cbv beta iota zeta delta [mbind M_bind mret M_ret get_flags].
  fold (pandoc_command_of (FLAGS st) target).
  destruct (shell_command_default _ st) as [[e|a] st1] eqn:Hsh;
    apply shell_command_default_ran in Hsh as [Hran Hout].
  - intros [= <- <-]. split; [done|]. split; [|discriminate].
    intros e' [= <-]. left.
    destruct Hout as [|(rc & Hrc & [= ->])]; [discriminate|]. eauto.
  - destruct (highlight (FLAGS st)).
    + unfold process_metadata, read_file, write_file.
      cbv beta iota zeta delta [mbind M_bind].
      destruct (files st1 !! _) as [content|]; intros [= <- <-].
      * split.
        { destruct Hran as (? & ? & evs & ? & ?). repeat split; simpl; eauto. }
        split; [discriminate|]. intros _ _. simpl.
        rewrite lookup_insert_eq. eauto.
      * split; [done|]. split; [|discriminate]. intros e [= <-]. by right.
    + intros [= <- <-]. split; [done|]. split; [discriminate|]. discriminate.
Qed.

(** C3, as amended.  [convert_to_tex target] runs pandoc with
    [-o <out> <target>.md] at the end of its command, where [<out>] is the
    value of [part_output] immediately followed by the base name of the
    target and [.tex] when [part_output] is a non-empty string (nothing is
    put between the two), and [<target>.tex] when [part_output] is unset
    or empty.  With [highlight] on, a conversion that returns has written
    that same file. *)
Theorem intermediate_file_path (target : string) (st : State) :
  let F := FLAGS st in
  let outcome := convert_to_tex target st in
  exists out,
    ran st (snd outcome)
      [[PANDOC] ++ pandoc_args_of F ++
       ["-f"; if markdown_tex F then "markdown" else "markdown-raw_tex";
        "-t"; "latex"; "-o"; out; target +:+ ".md"]] /\
    (fst outcome = Returned tt -> highlight F = true ->
       is_Some (files (snd outcome) !! out)) /\
    (forall d, part_output F = Some d -> d <> "" ->
       out = d +:+ Posixpath.basename target +:+ ".tex") /\
    (part_output F = None \/ part_output F = Some "" ->
       out = target +:+ ".tex").
Proof.
  intros F outcome. exists (tex_filename_of F target).
  destruct outcome as [r st'] eqn:Hrun. subst outcome.
  apply convert_to_tex_ran in Hrun as (Hran & _ & Hfile).
  split; [exact Hran|]. split; [exact Hfile|].
  unfold tex_filename_of. split.
  - intros d Hd Hne. fold F. rewrite Hd. destruct d; [done|]. reflexivity.
  - fold F. intros [-> | ->]; reflexivity.
Qed.


(** ** The pipeline *)

Lemma ran_flags st st' cmds : ran st st' cmds -> FLAGS st' = FLAGS st.
Proof. by intros (? & _). Qed.

Lemma for_each_convert_ran ps st r st' :
  for_each ps convert_to_tex st = (r, st') ->
  exists n, ran st st' (map (pandoc_command_of (FLAGS st)) (take n ps)) /\
    (r = Returned tt -> take n ps = ps).
Proof.
  revert st. induction ps as [|p ps IH]; intros st H.
  - inversion H; subst. exists 0%nat. split; [apply ran_refl | done].
  - simpl in H.
    apply bind_inv in H as [(e & H & ->) | ([] & st1 & H & H2)];
      apply convert_to_tex_ran in H as (Hran & _).
    + exists 1%nat. split; [done | discriminate].
    + apply IH in H2 as (n & Hran2 & Hret).
      rewrite (ran_flags _ _ _ Hran) in Hran2.
      exists (S n). split.
      * exact (ran_trans _ _ _ [_] _ Hran Hran2).
      * intros Hr. simpl. by rewrite Hret.
Qed.

Lemma conversions_ran st r st' :
  conversions st = (r, st') ->
  exists n, ran st st' (take n (conversion_commands (FLAGS st))) /\
    (r = Returned tt ->
     take n (conversion_commands (FLAGS st)) = conversion_commands (FLAGS st)).
Proof.
  unfold conversions, conversion_commands.
  cbv beta iota zeta delta [mbind M_bind get_flags].
  destruct (part (FLAGS st)) as [[|p ps]|].
  2: { intros H. apply for_each_convert_ran in H as (n & Hran & Hret).
       exists n. rewrite List.firstn_map. split; [done|].
       intros Hr. by rewrite (Hret Hr). }
  all: destruct (pandoc (FLAGS st)).
  all: try (intros [= <- <-]; exists 0%nat; split; [apply ran_refl | done]).
  all: intros H; pose proof H as H';
    apply convert_to_tex_ran in H as (Hran & _);
    exists 1%nat; split; [done | done].
Qed.

(** The children of [main], whatever its outcome: an initial segment of
    the conversion commands followed by the typeset commands, all of them
    when [main] returns, and conversion commands only when [conversions]
    raises. *)
Lemma main_ran st r st' :
  main st = (r, st') ->
  let st1 := snd (simple_settings st) in
  let F := derived_flags st in
  exists evs, children st' = children st ++ evs /\
    commands evs `prefix_of`
      (conversion_commands F ++ typeset_commands F (filename F)) /\
    (r = Returned tt ->
     commands evs = conversion_commands F ++ typeset_commands F (filename F)) /\
    (forall e st2, conversions st1 = (Raised e, st2) ->
       r = Raised e /\ st' = st2 /\
       commands evs `prefix_of` conversion_commands F) /\
    (forall e, r = Raised e ->
       (exists st2, conversions st1 = (Raised e, st2)) \/
       exists rc cmd, e = CalledProcessError rc cmd /\
         cmd ∈ typeset_commands F (filename F)).
Proof.
  intros H st1 F.
  destruct (simple_settings_returns st) as (Hs & _ & _ & Hch & _).
  fold st1 in Hs, Hch. unfold derived_flags in F. fold st1 in F.
  unfold main in H.
  apply bind_inv in H as [(e & H & _) | ([] & st1' & H & H2)];
    [rewrite Hs in H; discriminate|].
  rewrite Hs in H. injection H as <-.
  apply bind_inv in H2 as [(e & H & ->) | ([] & st2 & H & H2)].
  - pose proof H as Hc.
    apply conversions_ran in H as (n & (_ & _ & evs & Hev & Hcmds) & _).
    exists evs. rewrite Hev, Hch. split; [done|].
    assert (Hpre : commands evs `prefix_of` conversion_commands F)
      by (rewrite Hcmds; apply prefix_take).
    split; [by apply prefix_app_r|]. split; [discriminate|]. split.
    + intros e' st2' Hc'. rewrite Hc in Hc'. by injection Hc' as <- <-.
    + intros e' [= <-]. left. eauto.
  - pose proof H as Hc.
    apply conversions_ran in H as (n & Hran1 & Hret1).
    rewrite (Hret1 eq_refl) in Hran1.
    apply bind_inv in H2 as [(e & H & _) | (F2 & st3 & [= <- <-] & H2)];
      [discriminate|].
    rewrite build_pdf_run_all in H2.
    apply run_all_ran in H2 as (m & Hran2 & Hret2 & Hexn2).
    rewrite (ran_flags _ _ _ Hran1) in Hran2, Hret2, Hexn2.
    fold F in Hran2, Hret2, Hexn2.
    destruct (ran_trans _ _ _ _ _ Hran1 Hran2) as (_ & _ & evs & Hev & Hcmds).
    exists evs. rewrite Hev, Hch. split; [done|]. rewrite Hcmds.
    split; [apply prefix_app, prefix_take|].
    split; [intros Hr; by rewrite (Hret2 Hr)|]. split.
    + intros e st2' Hc'. rewrite Hc in Hc'. discriminate.
    + intros e He. right. destruct (Hexn2 e He) as (rc & cmd & -> & Hin & _).
      eauto.
Qed.

Lemma pandoc_command_head F target :
  head (pandoc_command_of F target) = Some PANDOC.
Proof. reflexivity. Qed.

Lemma pandoc_command_last F target :
  last (pandoc_command_of F target) = Some (target +:+ ".md").
Proof.
  unfold pandoc_command_of.
  rewrite app_assoc. rewrite last_app. reflexivity.
Qed.

Lemma conversion_commands_head F :
  Forall (fun cmd => head cmd = Some PANDOC) (conversion_commands F).
Proof.
  unfold conversion_commands.
  destruct (part F) as [[|p ps]|]; [| |]; try (destruct (pandoc F); by repeat constructor).
  apply Forall_forall. intros cmd Hin.
  apply list_elem_of_In, in_map_iff in Hin as (t & <- & _). reflexivity.
Qed.

Lemma typeset_commands_head F fname cmd :
  cmd ∈ typeset_commands F fname ->
  head cmd = Some LATEX \/ head cmd = Some BIBER \/ head cmd = Some BIBTEX.
Proof.
  unfold typeset_commands, bibliography_command_of, latex_command_of.
  destruct (bibtex F), (biblatex F); intros Hin;
    repeat (apply elem_of_cons in Hin as [-> | Hin]; [simpl; auto|]);
    by apply elem_of_nil in Hin.
Qed.

Lemma invocations_other prog other cmds :
  Forall (fun cmd => head cmd = Some other) cmds -> other <> prog ->
  invocations prog cmds = 0%nat.
Proof.
  intros Hall Hne. unfold invocations.
  induction Hall as [|cmd cmds Hcmd _ IH]; [done|].
  rewrite filter_cons_False; [exact IH|].
  rewrite Hcmd. congruence.
Qed.

(** C4.  With the parts [a] and [b] and the file [main], the children of
    [main] are, in order, pandoc on [a], pandoc on [b] and the commands of
    the typeset step on [main]: an initial segment of these whatever the
    outcome, all of them when [main] returns; pandoc on [main] is not
    among them.  With no part and [pandoc] on, they are pandoc on the file
    followed by the commands of the typeset step on the file. *)
Theorem parts_then_typeset (st : State) :
  let F := derived_flags st in
  (part (FLAGS st) = Some ["a"; "b"] -> filename (FLAGS st) = "main" ->
   forall r st', main st = (r, st') ->
     let all := [pandoc_command_of F "a"; pandoc_command_of F "b"]
                ++ typeset_commands F "main" in
     exists evs, children st' = children st ++ evs /\
       commands evs `prefix_of` all /\
       (r = Returned tt -> commands evs = all) /\
       pandoc_command_of F "main" ∉ commands evs) /\
  (part (FLAGS st) = None \/ part (FLAGS st) = Some [] ->
   pandoc (FLAGS st) = true ->
   forall r st', main st = (r, st') ->
     let all := [pandoc_command_of F (filename (FLAGS st))]
                ++ typeset_commands F (filename (FLAGS st)) in
     exists evs, children st' = children st ++ evs /\
       commands evs `prefix_of` all /\
       (r = Returned tt -> commands evs = all)).
Proof.
  intros F.
  destruct (simple_settings_returns st) as (_ & _ & _ & _ & Hname & Hpart & Hpandoc).
  fold (derived_flags st) in Hname, Hpart, Hpandoc. fold F in Hname, Hpart, Hpandoc.
  split.
  - intros Hp Hf r st' Hmain all.
    apply main_ran in Hmain as (evs & Hev & Hpre & Hret & _).
    fold F in Hpre, Hret.
    assert (Hall : conversion_commands F ++ typeset_commands F (filename F) = all).
    { unfold conversion_commands. by rewrite Hpart, Hp, Hname, Hf. }
    rewrite Hall in Hpre, Hret.
    exists evs. split; [done|]. split; [done|]. split; [done|].
    intros Hin. apply (elem_of_prefix _ _ _ Hin) in Hpre. clear Hin. rename Hpre into Hin.
    subst all. apply elem_of_app in Hin as [Hin | Hin].
    + apply elem_of_cons in Hin as [Heq | Hin].
      { apply (f_equal last) in Heq. rewrite !pandoc_command_last in Heq.
        discriminate. }
      apply elem_of_cons in Hin as [Heq | Hin]; [|by apply elem_of_nil in Hin].
      apply (f_equal last) in Heq. rewrite !pandoc_command_last in Heq.
      discriminate.
    + apply typeset_commands_head in Hin.
      rewrite pandoc_command_head in Hin.
      destruct Hin as [| [|]]; discriminate.
  - intros Hp Hpan r st' Hmain all.
    apply main_ran in Hmain as (evs & Hev & Hpre & Hret & _).
    fold F in Hpre, Hret.
    assert (Hall : conversion_commands F ++ typeset_commands F (filename F) = all).
    { unfold conversion_commands. rewrite Hpart, Hname, Hpandoc, Hpan.
      by destruct Hp as [-> | ->]. }
    rewrite Hall in Hpre, Hret. eauto.
Qed.

(** C9.  When the conversion step raises, [main] raises the same
    exception in the same state, and no child of that run is the
    typesetting engine; in particular a [CalledProcessError] of [main]
    whose command is pandoc comes with no run of the engine. *)
Theorem conversion_failure_stops_build (st : State) :
  (forall e st2,
     conversions (snd (simple_settings st)) = (Raised e, st2) ->
     main st = (Raised e, st2) /\
     exists evs, children st2 = children st ++ evs /\
       invocations LATEX (commands evs) = 0%nat) /\
  (forall rc cmd st',
     main st = (Raised (CalledProcessError rc cmd), st') ->
     head cmd = Some PANDOC ->
     exists evs, children st' = children st ++ evs /\
       invocations LATEX (commands evs) = 0%nat).
Proof.
  assert (Hconv : forall e st2,
    conversions (snd (simple_settings st)) = (Raised e, st2) ->
    main st = (Raised e, st2) /\
    exists evs, children st2 = children st ++ evs /\
      invocations LATEX (commands evs) = 0%nat).
  { intros e st2 Hc. destruct (main st) as [r st'] eqn:Hmain.
    apply main_ran in Hmain as (evs & Hev & _ & _ & Hraise & _).
    destruct (Hraise e st2 Hc) as (-> & -> & Hpre).
    split; [done|]. exists evs. split; [done|].
    apply (invocations_other _ PANDOC); [|discriminate].
    apply Forall_forall. intros cmd Hin.
    apply (elem_of_prefix _ _ _ Hin) in Hpre. clear Hin. rename Hpre into Hin.
    pose proof (conversion_commands_head (derived_flags st)) as Hall.
    rewrite Forall_forall in Hall. by apply Hall. }
  split; [exact Hconv|].
  intros rc cmd st' Hmain Hhead. pose proof Hmain as Hmain'.
  apply main_ran in Hmain as (evs & _ & _ & _ & _ & Hcause).
  destruct (Hcause _ eq_refl) as [(st2 & Hc) | (rc' & cmd' & [= <- <-] & Hin)].
  - destruct (Hconv _ _ Hc) as (Hm & Hevs).
    rewrite Hmain' in Hm. by injection Hm as <-.
  - apply typeset_commands_head in Hin. rewrite Hhead in Hin.
    destruct Hin as [| [|]]; discriminate.
Qed.

(** ** The annotation rewriter *)

(** C7.  On the annotated Shaded block of the specification the rewrite
    gives a listing block made of the Shaded block, character for
    character, then the label, then the caption; rewriting the result
    again changes nothing.  This holds whatever the Unicode tables say, as
    the input is ASCII. *)
Theorem rewrite_listing_example :
  let shaded := "\begin{Shaded}" +:+ NL +:+ "CODE" +:+ NL +:+ "\end{Shaded}" in
  let input := "\codeMetadata[fig:1]{A title}" +:+ NL +:+ shaded in
  let output :=
    NL +:+ "    \begin{listing}" +:+ NL +:+
    "    " +:+ shaded +:+ "\label{fig:1}" +:+ NL +:+
    "    \caption{A title}" +:+ NL +:+
    "    \end{listing}" +:+ NL +:+
    "    " in
  METADATA_sub input = output /\
  METADATA_sub (METADATA_sub input) = METADATA_sub input.
Proof. vm_compute. split; reflexivity. Qed.

(** [process_metadata] rewrites an existing file in place. *)
Lemma process_metadata_rewrites path content st :
  files st !! path = Some content ->
  process_metadata path st =
    (Returned tt,
     mkState (FLAGS st) (os_cwd st)
       (<[path := METADATA_sub content]> (files st)) (children st)).
Proof.
  intros H. unfold process_metadata, read_file, write_file.
  cbv beta iota zeta delta [mbind M_bind]. by rewrite H.
Qed.

(** *** Facts about text *)

Lemma chars_app (a b : string) : chars (a +:+ b) = chars a ++ chars b.
Proof. induction a as [|c a IH]; simpl; [done | by rewrite IH]. Qed.

Lemma chars_length (a : string) : length (chars a) = String.length a.
Proof. induction a as [|c a IH]; simpl; [done | by rewrite IH]. Qed.

(** A text is cut in one way only at the first occurrence of a
    character. *)
Lemma split_at_first (c : ascii) (pre1 post1 pre2 post2 : text) :
  pre1 ++ c :: post1 = pre2 ++ c :: post2 ->
  c ∉ pre1 -> c ∉ pre2 -> pre1 = pre2 /\ post1 = post2.
Proof.
  revert pre2. induction pre1 as [|a pre1 IH]; intros [|b pre2] Heq H1 H2;
    simpl in Heq.
  - by injection Heq.
  - injection Heq as -> _. exfalso. apply H2. by left.
  - injection Heq as -> _. exfalso. apply H1. by left.
  - injection Heq as -> Heq.
    destruct (IH pre2 Heq) as [-> ->]; [| |done].
    + intros ?. apply H1. by right.
    + intros ?. apply H2. by right.
Qed.

Lemma starts_with_app (needle s : text) : starts_with needle (needle ++ s) = true.
Proof.
  induction needle as [|c needle IH]; simpl; [done|].
  by rewrite Ascii.eqb_refl.
Qed.

Lemma occurrences_from_complete (needle : text) (k i : nat) (s : text) :
  (i <= length s)%nat -> starts_with needle (drop i s) = true ->
  (k + i)%nat ∈ occurrences_from needle k s.
Proof.
  revert k i. induction s as [|c s IH]; intros k i Hi Hs.
  - simpl in Hi. assert (i = 0%nat) as -> by lia. simpl in *.
    rewrite Hs. rewrite Nat.add_0_r. by left.
  - destruct i as [|i].
    + rewrite drop_0 in Hs. cbn [occurrences_from]. rewrite Hs.
      rewrite Nat.add_0_r. by left.
    + cbn [occurrences_from]. apply elem_of_app. right.
      replace (k + S i)%nat with (S k + i)%nat by lia.
      apply IH; [simpl in Hi; lia | exact Hs].
Qed.

(** *** Facts about the matcher *)

Local Abbreviation search := (Re.search unicode_isalnum unicode_isspace).
Local Abbreviation in_set := (Re.in_set unicode_isalnum unicode_isspace).

Lemma search_literals_app {R} (l s : text) caps (k : Re.cont (R:=R)) :
  search (Re.literals l) (l ++ s) caps k = k s caps.
Proof.
  induction l as [|c l IH]; simpl; [done|].
  by rewrite Ascii.eqb_refl.
Qed.

Lemma search_literals_inv {R} (l s : text) caps (k : Re.cont (R:=R)) x :
  search (Re.literals l) s caps k = Some x ->
  exists s', s = l ++ s' /\ k s' caps = Some x.
Proof.
  revert s. induction l as [|c l IH]; intros s H; simpl in H; [by exists s|].
  destruct s as [|d s]; [discriminate|].
  destruct (Ascii.eqb d c) eqn:Hd; [|discriminate].
  apply Ascii.eqb_eq in Hd as ->.
  apply IH in H as (s' & -> & Hk). by exists s'.
Qed.

Lemma repeat_loop_unfold {R} body greedy lo (k : Re.cont (R:=R)) fuel cnt s caps :
  Re.repeat_loop body greedy lo k fuel cnt s caps =
    let more :=
      match fuel with
      | O => None
      | S fuel' =>
          body s caps (fun s' caps' =>
            if Nat.ltb (length s') (length s)
            then Re.repeat_loop body greedy lo k fuel' (S cnt) s' caps'
            else None)
      end in
    let leave := if Nat.leb lo cnt then k s caps else None in
    if greedy
    then match more with Some x => Some x | None => leave end
    else match leave with Some x => Some x | None => more end.
Proof. destruct fuel; reflexivity. Qed.

(** A repetition of a set that succeeds has consumed a run of characters
    of the set, at least [lo] of them counting those already done, and
    the continuation has succeeded on the rest. *)
Lemma repeat_set_inv {R} items greedy lo (k : Re.cont (R:=R)) fuel cnt s caps x :
  Re.repeat_loop (search (Re.In items)) greedy lo k fuel cnt s caps = Some x ->
  exists pre post, s = pre ++ post /\
    Forall (fun c => in_set items c = true) pre /\
    (lo <= cnt + length pre)%nat /\
    k post caps = Some x.
Proof.
  revert cnt s. induction fuel as [|fuel IH]; intros cnt s H;
    rewrite repeat_loop_unfold in H; cbv zeta in H.
  - assert (Hleave : (if Nat.leb lo cnt then k s caps else None) = Some x)
      by (destruct greedy, (if Nat.leb lo cnt then k s caps else None); congruence).
    destruct (Nat.leb lo cnt) eqn:Hlo; [|discriminate].
    apply Nat.leb_le in Hlo.
    exists [], s. repeat split; [constructor | simpl; lia | done].
  - assert (Hcases :
      (if Nat.leb lo cnt then k s caps else None) = Some x \/
      search (Re.In items) s caps (fun s' caps' =>
        if Nat.ltb (length s') (length s)
        then Re.repeat_loop (search (Re.In items)) greedy lo k fuel (S cnt) s' caps'
        else None) = Some x).
    { destruct greedy.
      - destruct (search (Re.In items) s caps _) eqn:Hm; [right; congruence | by left].
      - destruct (if Nat.leb lo cnt then k s caps else None) eqn:Hl;
          [left; congruence | by right]. }
    clear H. destruct Hcases as [Hleave | Hmore].
    + destruct (Nat.leb lo cnt) eqn:Hlo; [|discriminate].
      apply Nat.leb_le in Hlo.
      exists [], s. repeat split; [constructor | simpl; lia | done].
    + simpl in Hmore. destruct s as [|d s]; [discriminate|].
      destruct (in_set items d) eqn:Hd; [|discriminate].
      destruct (Nat.ltb _ _); [|discriminate].
      apply IH in Hmore as (pre & post & -> & Hpre & Hlo & Hk).
      exists (d :: pre), post. repeat split; [by constructor | simpl; lia | done].
Qed.

(** Where the pattern matches nowhere, [sub] copies the text. *)
Lemma sub_scan_no_match r repl (s : text) :
  (forall i, Re.match_here unicode_isalnum unicode_isspace r (drop i s) = None) ->
  Re.sub_scan unicode_isalnum unicode_isspace r repl 0 s = s.
Proof.
  induction s as [|c s IH]; intros Hno.
  - cbn [Re.sub_scan]. pose proof (Hno 0%nat) as H0. rewrite drop_0 in H0.
    by rewrite H0.
  - cbn [Re.sub_scan]. pose proof (Hno 0%nat) as H0. rewrite drop_0 in H0.
    rewrite H0. f_equal. apply IH. intros i. exact (Hno (S i)).
Qed.

Lemma search_seq {R} r1 r2 s caps (k : Re.cont (R:=R)) :
  search (Re.Seq r1 r2) s caps k =
    search r1 s caps (fun s' caps' => search r2 s' caps' k).
Proof. reflexivity. Qed.

Lemma search_group_repeat {R} i lo items s caps (k : Re.cont (R:=R)) :
  search (Re.Subpattern i (Re.MaxRepeat lo (Re.In items))) s caps k =
    Re.repeat_loop (search (Re.In items)) true lo
      (fun s' caps' => k s' ((i, take (length s - length s') s) :: caps'))
      (length s) 0 s caps.
Proof. reflexivity. Qed.

Lemma search_literal_inv {R} c s caps (k : Re.cont (R:=R)) x :
  search (Re.Literal c) s caps k = Some x ->
  exists s', s = c :: s' /\ k s' caps = Some x.
Proof.
  simpl. destruct s as [|d s]; [discriminate|].
  destruct (Ascii.eqb d c) eqn:Hd; [|discriminate].
  apply Ascii.eqb_eq in Hd as ->. eauto.
Qed.

Lemma contains_char_false c s : contains_char c s = false -> c ∉ chars s.
Proof.
  unfold contains_char. intros H Hin.
  assert (existsb (Ascii.eqb c) (chars s) = true); [|congruence].
  apply existsb_exists. exists c. split; [by apply list_elem_of_In|].
  apply Ascii.eqb_refl.
Qed.

Lemma has_char_outside_true items s :
  has_char_outside items s = true ->
  ~ Forall (fun c => in_set items c = true) (chars s).
Proof.
  unfold has_char_outside. intros H Hall.
  apply existsb_exists in H as (c & Hin & Hc).
  rewrite Forall_forall in Hall.
  apply list_elem_of_In, Hall in Hin. rewrite Hin in Hc. discriminate.
Qed.

Lemma not_in_run items (c : ascii) (run : text) :
  in_set items c = false ->
  Forall (fun d => in_set items d = true) run -> c ∉ run.
Proof.
  intros Hc Hall Hin. rewrite Forall_forall in Hall.
  apply Hall in Hin. congruence.
Qed.

(** The pattern does not match at an annotation whose label or caption
    has a character outside its set. *)
Lemma malformed_annotation_no_match (label caption : string) (rest : text) :
  contains_char "]" label = false ->
  contains_char "}" caption = false ->
  has_char_outside LABEL_SET label = true \/
  has_char_outside CAPTION_SET caption = true ->
  Re.match_here unicode_isalnum unicode_isspace METADATA_REGEX
    (chars "\codeMetadata[" ++ chars label ++ chars "]{" ++ chars caption
     ++ chars "}" ++ rest) = None.
Proof.
  intros Hl Hc Hbad.
  apply contains_char_false in Hl, Hc.
  destruct (Re.match_here _ _ _ _) as [x|] eqn:H; [exfalso | done].
  unfold Re.match_here, METADATA_REGEX in H.
  rewrite search_seq, search_literals_app in H.
  rewrite search_seq, search_group_repeat in H.
  apply repeat_set_inv in H as (run & post & Heq & Hrun & _ & H).
  rewrite search_seq in H.
  apply search_literals_inv in H as (post' & -> & H).
  change (chars "]{") with ["]"; "{"]%char in Heq. simpl in Heq.
  apply split_at_first in Heq as [<- Heq];
    [| exact Hl | by apply (not_in_run LABEL_SET)].
  destruct Hbad as [Hbad | Hbad];
    [by apply has_char_outside_true in Hbad|].
  injection Heq as <-.
  rewrite search_seq, search_group_repeat in H.
  apply repeat_set_inv in H as (run2 & post2 & Heq & Hrun2 & _ & H).
  rewrite search_seq in H.
  apply search_literal_inv in H as (post2' & -> & _).
  apply split_at_first in Heq as [<- _];
    [| exact Hc | by apply (not_in_run CAPTION_SET)].
  by apply has_char_outside_true in Hbad.
Qed.


(** *** The repetition loop has turns to spare

    [search] hands the loop [length s] turns.  Each turn consumes a
    character, so a loop given more turns than that finds the same
    result: no match is lost for want of turns. *)

Lemma repeat_loop_ext {R} (body : text -> Re.captures -> Re.cont (R:=R) -> option R)
    greedy lo (k1 k2 : Re.cont (R:=R)) fuel cnt s caps :
  (forall s caps k k', (forall s' caps', k s' caps' = k' s' caps') ->
     body s caps k = body s caps k') ->
  (forall s' caps', k1 s' caps' = k2 s' caps') ->
  Re.repeat_loop body greedy lo k1 fuel cnt s caps =
  Re.repeat_loop body greedy lo k2 fuel cnt s caps.
Proof.
  intros Hbody Hk. revert cnt s caps.
  induction fuel as [|fuel IH]; intros cnt s caps;
    rewrite !repeat_loop_unfold; cbv zeta; rewrite (Hk s caps); [done|].
  erewrite Hbody; [reflexivity|].
  intros s' caps'. cbv beta. by rewrite IH.
Qed.

Lemma search_ext {R} r s caps (k1 k2 : Re.cont (R:=R)) :
  (forall s' caps', k1 s' caps' = k2 s' caps') ->
  search r s caps k1 = search r s caps k2.
Proof.
  revert s caps k1 k2.
  induction r as [|c|items|lo r IH|lo r IH|i r IH|r1 IH1 r2 IH2];
    intros s caps k1 k2 Hk; simpl.
  - apply Hk.
  - destruct s as [|d s]; [done|]. destruct (Ascii.eqb d c); [apply Hk | done].
  - destruct s as [|d s]; [done|]. destruct (in_set items d); [apply Hk | done].
  - apply repeat_loop_ext; [exact IH | exact Hk].
  - apply repeat_loop_ext; [exact IH | exact Hk].
  - apply IH. intros s' caps'. apply Hk.
  - apply IH1. intros s' caps'. by apply IH2.
Qed.

Lemma repeat_loop_fail {R} (body : text -> Re.captures -> Re.cont (R:=R) -> option R)
    greedy lo fuel cnt s caps :
  (forall s caps k k', (forall s' caps', k s' caps' = k' s' caps') ->
     body s caps k = body s caps k') ->
  (forall s caps, body s caps (fun _ _ => None) = None) ->
  Re.repeat_loop body greedy lo (fun _ _ => None) fuel cnt s caps = None.
Proof.
  intros Hext Hfail. revert cnt s caps.
  induction fuel as [|fuel IH]; intros cnt s caps;
    rewrite repeat_loop_unfold; cbv zeta.
  - by destruct greedy, (Nat.leb lo cnt).
  - erewrite Hext; [rewrite Hfail|].
    + by destruct greedy, (Nat.leb lo cnt).
    + intros s' caps'. cbv beta. rewrite IH. by destruct (Nat.ltb _ _).
Qed.

Lemma search_fail {R} r s caps :
  search r s caps (fun _ _ => @None R) = None.
Proof.
  revert s caps.
  induction r as [|c|items|lo r IH|lo r IH|i r IH|r1 IH1 r2 IH2];
    intros s caps; simpl.
  - done.
  - destruct s as [|d s]; [done|]. by destruct (Ascii.eqb d c).
  - destruct s as [|d s]; [done|]. by destruct (in_set items d).
  - apply repeat_loop_fail; [intros; by apply search_ext | exact IH].
  - apply repeat_loop_fail; [intros; by apply search_ext | exact IH].
  - apply IH.
  - erewrite search_ext; [apply IH1|]. intros s' caps'. apply IH2.
Qed.

Lemma repeat_loop_turns {R} r greedy lo (k : Re.cont (R:=R)) (n : nat) :
  forall s cnt caps fuel1 fuel2,
    (length s <= n)%nat -> (length s <= fuel1)%nat -> (length s <= fuel2)%nat ->
    Re.repeat_loop (search r) greedy lo k fuel1 cnt s caps =
    Re.repeat_loop (search r) greedy lo k fuel2 cnt s caps.
Proof.
  induction n as [|n IH]; intros s cnt caps fuel1 fuel2 Hn H1 H2;
    rewrite !repeat_loop_unfold; cbv zeta.
  - assert (s = []) as -> by (destruct s; [done | simpl in Hn; lia]).
    assert (Hnone : forall fuel,
      match fuel with
      | O => None
      | S fuel' =>
          search r [] caps (fun s' caps' =>
            if Nat.ltb (length s') (length (@nil ascii))
            then Re.repeat_loop (search r) greedy lo k fuel' (S cnt) s' caps'
            else None)
      end = None).
    { intros [|fuel]; [done|]. erewrite search_ext; [apply search_fail|].
      intros s' caps'. simpl. by destruct (length s'). }
    by rewrite !Hnone.
  - destruct fuel1 as [|fuel1], fuel2 as [|fuel2].
    + done.
    + assert (s = []) as -> by (destruct s; [done | simpl in H1; lia]).
      erewrite (search_ext r [] caps _ (fun _ _ => None)); [by rewrite search_fail|].
      intros s' caps'. simpl. by destruct (length s').
    + assert (s = []) as -> by (destruct s; [done | simpl in H2; lia]).
      erewrite (search_ext r [] caps _ (fun _ _ => None)); [by rewrite search_fail|].
      intros s' caps'. simpl. by destruct (length s').
    + erewrite (search_ext r s caps); [reflexivity|].
      intros s' caps'. cbv beta.
      destruct (Nat.ltb (length s') (length s)) eqn:Hlt; [|done].
      apply Nat.ltb_lt in Hlt. apply IH; lia.
Qed.

(** The loop run by [search] is the loop with any larger number of
    turns. *)
Lemma repeat_loop_enough {R} r greedy lo (k : Re.cont (R:=R)) fuel cnt s caps :
  (length s <= fuel)%nat ->
  Re.repeat_loop (search r) greedy lo k fuel cnt s caps =
  Re.repeat_loop (search r) greedy lo k (length s) cnt s caps.
Proof. intros H. by apply (repeat_loop_turns _ _ _ _ (length s)). Qed.

Lemma str_app (a b : text) : str (a ++ b) = str a +:+ str b.
Proof. induction a as [|c a IH]; simpl; [done | by rewrite IH]. Qed.

(** Where [needle ++ s'] begins like [D ++ rest], either [needle] fits in
    [D] or [D] is the beginning of [needle]. *)
Lemma starts_with_or_straddles (needle D rest s' : text) :
  D ++ rest = needle ++ s' ->
  starts_with needle D = true \/ exists t, needle = D ++ t.
Proof.
  revert D. induction needle as [|c needle IH]; intros D Heq; [by left|].
  destruct D as [|d D]; [right; by exists (c :: needle)|].
  simpl in Heq. injection Heq as -> Heq.
  destruct (IH D Heq) as [Hs | (t & ->)].
  - left. simpl. by rewrite Ascii.eqb_refl.
  - right. by exists t.
Qed.

(** Before the pattern has matched, [sub] copies what it passes over. *)
Lemma sub_scan_prefix r repl (pre post : text) :
  (forall i, (i < length pre)%nat ->
     Re.match_here unicode_isalnum unicode_isspace r (drop i (pre ++ post)) = None) ->
  Re.sub_scan unicode_isalnum unicode_isspace r repl 0 (pre ++ post) =
  pre ++ Re.sub_scan unicode_isalnum unicode_isspace r repl 0 post.
Proof.
  induction pre as [|c pre IH]; intros Hno; [done|].
  change ((c :: pre) ++ post) with (c :: (pre ++ post)).
  cbn [Re.sub_scan]. pose proof (Hno 0%nat) as H0. simpl in H0.
  rewrite H0 by lia. simpl. f_equal. apply IH.
  intros i Hi. apply (Hno (S i)). simpl. lia.
Qed.

(** The pattern matches only where the annotation opener stands; inside a
    text that ends with a closing brace, no match begins in the last
    characters either, as the opener has no brace. *)
Lemma no_match_without_opener (B after : text) (i : nat) :
  (i < length B)%nat -> last B = Some "}"%char ->
  starts_with (chars "\codeMetadata[") (drop i B) = false ->
  Re.match_here unicode_isalnum unicode_isspace METADATA_REGEX
    (drop i (B ++ after)) = None.
Proof.
  intros Hi Hlast Hno.
  destruct (Re.match_here _ _ _ _) as [x|] eqn:H; [exfalso | done].
  unfold Re.match_here, METADATA_REGEX in H. rewrite search_seq in H.
  apply search_literals_inv in H as (s' & Heq & _).
  rewrite drop_app_le in Heq by lia.
  apply starts_with_or_straddles in Heq as [Hs | (t & Ht)]; [congruence|].
  apply last_Some in Hlast as (B' & ->).
  rewrite length_app in Hi. simpl in Hi.
  rewrite drop_app_le in Ht by lia.
  assert (Hin : "}"%char ∈ chars "\codeMetadata[").
  { rewrite Ht. apply elem_of_app. left. apply elem_of_app. right. by left. }
  vm_compute in Hin. repeat (apply elem_of_cons in Hin as [Hin | Hin]; [discriminate|]).
  by apply elem_of_nil in Hin.
Qed.

(** C10, as amended.  Take an annotation followed by a Shaded block, the
    label being what stands before the first closing bracket and the
    caption what stands before the first closing brace.  If the label has a
    character outside letters, digits and colons, or the caption has a
    character outside word characters, parentheses, colons, periods and
    spaces, then the pattern does not match at the annotation, whatever
    follows it; if the opener occurs neither earlier in the text nor
    inside the annotation and its block, the rewrite copies everything up
    to the end of the block as it is and goes on with what follows; and if
    the opener occurs at this place only, the text is returned unchanged.
    An annotation nested in the label or in the block is matched on its
    own account. *)
Theorem malformed_annotation_untouched
    (before label caption gap body after : string) :
  let block := annotated_block label caption gap body in
  contains_char "]" label = false ->
  contains_char "}" caption = false ->
  has_char_outside LABEL_SET label = true \/
  has_char_outside CAPTION_SET caption = true ->
  Re.match_here unicode_isalnum unicode_isspace METADATA_REGEX
    (chars (block +:+ after)) = None /\
  (occurrences "\codeMetadata[" (before +:+ block) = [String.length before] ->
   METADATA_sub (before +:+ block +:+ after) =
     before +:+ block +:+ METADATA_sub after) /\
  (occurrences "\codeMetadata[" (before +:+ block +:+ after)
     = [String.length before] ->
   METADATA_sub (before +:+ block +:+ after) = before +:+ block +:+ after).
Proof.
  intros block Hl Hc Hbad.
  assert (Hhere : Re.match_here unicode_isalnum unicode_isspace METADATA_REGEX
                    (chars (block +:+ after)) = None).
  { subst block. unfold annotated_block.
    rewrite !chars_app, <- !app_assoc.
    by apply malformed_annotation_no_match. }
  split; [exact Hhere|]. split.
  - intros Hocc. unfold METADATA_sub, Re.sub.
    rewrite !chars_app, app_assoc, sub_scan_prefix.
    { by rewrite <- app_assoc, !str_app, !string_of_list_ascii_of_string. }
    intros i Hi.
    destruct (decide (i = String.length before)) as [-> | Hne].
    + rewrite <- app_assoc, <- chars_length, drop_app_length.
      by rewrite <- chars_app.
    + apply no_match_without_opener; [exact Hi | |].
      * subst block. unfold annotated_block.
        rewrite !chars_app, !app_assoc, last_app. reflexivity.
      * destruct (starts_with _ _) eqn:Hs; [exfalso | done].
        apply (occurrences_from_complete _ 0) in Hs; [|lia].
        unfold occurrences in Hocc. rewrite chars_app in Hocc.
        rewrite Hocc in Hs. apply list_elem_of_singleton in Hs.
        simpl in Hs. contradiction.
  - intros Hocc. unfold METADATA_sub, Re.sub.
    rewrite sub_scan_no_match; [apply string_of_list_ascii_of_string|].
    intros i. rewrite chars_app.
    destruct (decide (i = String.length before)) as [-> | Hi].
    + rewrite <- chars_length, drop_app_length. exact Hhere.
    + destruct (Re.match_here _ _ _ (drop i _)) as [x|] eqn:H; [exfalso | done].
      unfold Re.match_here, METADATA_REGEX in H.
      rewrite search_seq in H.
      apply search_literals_inv in H as (s' & Heq & _).
      destruct (decide (i <= length (chars before ++ chars (block +:+ after)))%nat)
        as [Hle | Hgt].
      * pose proof (occurrences_from_complete (chars "\codeMetadata[") 0 i _ Hle)
          as Hin.
        rewrite Heq, starts_with_app in Hin. specialize (Hin eq_refl).
        unfold occurrences in Hocc. rewrite chars_app in Hocc.
        rewrite Hocc in Hin. apply list_elem_of_singleton in Hin.
        simpl in Hin. contradiction.
      * rewrite drop_ge in Heq by lia. discriminate.
Qed.

(** * Further properties *)

(** ** [shell_command]: what the keywords do *)

(** X1.  With [throw=False] the call returns [None] whatever the exit
    status.  Neither [output] nor [shell] is looked at on that path: one
    child is run, the command itself without a shell, in the directory
    asked for, and its files are what is left. *)
Theorem shell_command_no_throw (cmd : list string) (output shell : bool)
    (cwd : option string) (st : State) :
  let dir := match cwd with
             | Some d => join_path (os_cwd st) [d]
             | None => os_cwd st
             end in
  let done := os_exec cmd dir (files st) in
  exists st',
    shell_command cmd false output shell cwd st = (Returned None, st') /\
    children st' = children st ++ [Exec cmd dir (returncode done)] /\
    files st' = files_after done /\
    FLAGS st' = FLAGS st.
Proof.
  intros dir done. subst dir done.
  unfold shell_command, subprocess_call, run_child.
  cbv beta iota zeta delta [mbind M_bind mret M_ret os_getcwd os_chdir].
  destruct cwd as [d|]; cbn [os_cwd files children FLAGS]; eauto.
Qed.

(** X3.  With [throw=True] and [output=True] the command is run directly,
    [shell] being ignored; a zero status returns what the child printed, any
    other status raises [CalledProcessError].  Either way the call ends in
    the directory it changed to: the last lines of the function are not
    reached. *)
Theorem shell_command_output (cmd : list string) (shell : bool)
    (cwd : option string) (st : State) :
  let dir := match cwd with
             | Some d => join_path (os_cwd st) [d]
             | None => os_cwd st
             end in
  let done := os_exec cmd dir (files st) in
  exists st',
    shell_command cmd true true shell cwd st =
      (if returncode done =? 0 then Returned (Some (stdout done))
       else Raised (CalledProcessError (returncode done) cmd), st') /\
    children st' = children st ++ [Exec cmd dir (returncode done)] /\
    os_cwd st' = dir.
Proof.
  intros dir done. subst dir done.
  unfold shell_command, subprocess_check_output, run_child.
  cbv beta iota zeta delta [mbind M_bind mret M_ret raise os_getcwd os_chdir].
  destruct cwd as [d|]; cbn [os_cwd files children FLAGS];
    destruct (_ =? 0); eauto.
Qed.

(** ** Runs stop at the first failure *)

Lemma orderly_app {A B} dir evs1 evs2 (a : A) (r : result B) :
  orderly dir evs1 (Returned a) -> orderly dir evs2 r ->
  orderly dir (evs1 ++ evs2) r.
Proof.
  intros [Hd1 Hc1] [Hd2 Hr]. split; [by apply Forall_app|].
  destruct r as [[rc cmd|p]|b].
  - destruct Hr as (evs0 & -> & Hc0 & Hrc).
    exists (evs1 ++ evs0). split; [by rewrite app_assoc|].
    split; [by apply Forall_app | done].
  - by apply Forall_app.
  - by apply Forall_app.
Qed.

Lemma tidy_quiet {A} (m : M A) :
  (forall st, exists r, m st = (r, st) /\
     forall rc cmd, r <> Raised (CalledProcessError rc cmd)) ->
  tidy m.
Proof.
  intros Hm st r st' H. destruct (Hm st) as (r0 & Hr0 & Hne).
  rewrite Hr0 in H. injection H as <- <-.
  exists []. rewrite app_nil_r. repeat split; [constructor|].
  destruct r0 as [[rc cmd|p]|a]; [by destruct (Hne rc cmd) | constructor..].
Qed.

Lemma tidy_ret {A} (a : A) : tidy (mret a).
Proof. apply tidy_quiet. intros st. by exists (Returned a). Qed.

Lemma tidy_get_flags : tidy get_flags.
Proof. apply tidy_quiet. intros st. by exists (Returned (FLAGS st)). Qed.

Lemma tidy_read_file path : tidy (read_file path).
Proof.
  apply tidy_quiet. intros st. unfold read_file.
  destruct (files st !! path); eexists; split; try reflexivity; discriminate.
Qed.

Lemma tidy_write_file path content : tidy (write_file path content).
Proof.
  intros st r st' [= <- <-]. exists []. simpl. rewrite app_nil_r.
  repeat split; constructor.
Qed.

Lemma tidy_bind {A B} (m : M A) (f : A -> M B) :
  tidy m -> (forall a, tidy (f a)) -> tidy (m ≫= f).
Proof.
  intros Hm Hf st r st' H.
  apply bind_inv in H as [(e & H & ->) | (a & st1 & H & H2)].
  - apply Hm in H as (evs & ? & ? & ? & Ho). exists evs. repeat split; try done.
    + apply Ho.
    + destruct Ho as [_ Ho]. exact Ho.
  - apply Hm in H as (evs1 & He1 & Hc1 & HF1 & Ho1).
    apply Hf in H2 as (evs2 & He2 & Hc2 & HF2 & Ho2).
    rewrite Hc1 in Ho2, Hc2. exists (evs1 ++ evs2).
    split; [by rewrite He2, He1, app_assoc|].
    split; [done|]. split; [congruence|]. by eapply orderly_app.
Qed.

Lemma tidy_shell_command_default cmd : tidy (shell_command_default cmd).
Proof.
  intros st r st'. rewrite shell_command_default_run. cbv zeta.
  destruct (_ =? 0) eqn:Hrc; intros [= <- <-]; eexists; cbn;
    (split; [reflexivity|]); repeat split; try by repeat constructor.
  - repeat constructor. by apply Z.eqb_eq.
  - exists []. repeat split; [constructor | by apply Z.eqb_neq].
Qed.

Lemma tidy_for_each {A} (l : list A) (body : A -> M unit) :
  (forall x, tidy (body x)) -> tidy (for_each l body).
Proof.
  intros Hbody. induction l as [|x l IH]; [apply tidy_ret|].
  simpl. apply tidy_bind; [apply Hbody | intros _; exact IH].
Qed.

Lemma tidy_run_all cmds : tidy (run_all cmds).
Proof.
  apply tidy_for_each. intros cmd.
  apply tidy_bind; [apply tidy_shell_command_default | intros; apply tidy_ret].
Qed.

Lemma tidy_convert_to_tex target : tidy (convert_to_tex target).
Proof.
  apply tidy_bind; [apply tidy_get_flags | intros F].
  apply tidy_bind.
  - apply tidy_bind; [apply tidy_get_flags | intros F'].
    apply tidy_bind; [apply tidy_shell_command_default | intros; apply tidy_ret].
  - intros _. destruct (highlight F); [|apply tidy_ret].
    apply tidy_bind; [apply tidy_read_file | intros; apply tidy_write_file].
Qed.

Lemma tidy_conversions : tidy conversions.
Proof.
  apply tidy_bind; [apply tidy_get_flags | intros F].
  destruct (part F) as [[|p ps]|].
  2: { apply tidy_for_each. apply tidy_convert_to_tex. }
  all: destruct (pandoc F); [apply tidy_convert_to_tex | apply tidy_ret].
Qed.

Lemma tidy_build_pdf fname : tidy (build_pdf fname).
Proof.
  intros st r st' H. rewrite build_pdf_run_all in H.
  by apply tidy_run_all in H.
Qed.

(** [main] changes the flags in [simple_settings] only; after that it is
    tidy. *)
Lemma main_orderly st r st' :
  main st = (r, st') ->
  exists evs, children st' = children st ++ evs /\
    os_cwd st' = os_cwd st /\ FLAGS st' = derived_flags st /\
    orderly (os_cwd st) evs r.
Proof.
  intros H. unfold main in H.
  destruct (simple_settings_returns st) as (Hs & Hcwd & _ & Hch & _).
  apply bind_inv in H as [(e & H & _) | ([] & st1 & H & H2)];
    [rewrite Hs in H; discriminate|].
  rewrite Hs in H. injection H as <-.
  assert (Htidy : tidy (conversions;; F ← get_flags; build_pdf (filename F))).
  { apply tidy_bind; [apply tidy_conversions | intros _].
    apply tidy_bind; [apply tidy_get_flags | intros F; apply tidy_build_pdf]. }
  apply Htidy in H2 as (evs & He & Hc & HF & Ho).
  exists evs. rewrite He, Hch, Hc, Hcwd, HF. rewrite Hcwd in Ho. done.
Qed.

Lemma invocations_absent prog cmds :
  Forall (fun cmd => head cmd <> Some prog) cmds ->
  invocations prog cmds = 0%nat.
Proof.
  intros Hall. unfold invocations.
  induction Hall as [|cmd cmds Hcmd _ IH]; [done|].
  rewrite filter_cons_False; [exact IH | exact Hcmd].
Qed.

(** X4.  With [bibtex] and [biblatex] both on, a [build_pdf] that runs to
    its end has run the engine, [bibtex] on the base name, and the engine
    twice more; biber is not run. *)
Theorem build_pdf_bibtex (fname : string) (st st' : State) :
  bibtex (FLAGS st) = true -> biblatex (FLAGS st) = true ->
  build_pdf fname st = (Returned tt, st') ->
  let engine := [LATEX] ++ latex_args_of (FLAGS st) ++ [fname +:+ ".tex"] in
  exists evs, children st' = children st ++ evs /\
    commands evs = [engine; [BIBTEX; fname]; engine; engine] /\
    invocations BIBTEX (commands evs) = 1%nat /\
    invocations BIBER (commands evs) = 0%nat.
Proof.
  intros Hb Hbl H engine. rewrite build_pdf_run_all in H.
  apply run_all_ran in H as (n & (_ & _ & evs & Hev & Hcmds) & Hret & _).
  rewrite (Hret eq_refl) in Hcmds. exists evs. split; [done|].
  rewrite Hcmds. unfold typeset_commands, bibliography_command_of,
    latex_command_of. rewrite Hb, Hbl. done.
Qed.


(** X6.  With a non-empty list of parts, the children of [main] are pandoc
    on each part, in list order, followed by the commands of the typeset
    step on [filename]: an initial segment of these whatever the outcome,
    all of them when [main] returns.  The [pandoc] flag plays no part: parts
    are converted even with [pandoc] off, and [filename] itself is not
    converted. *)
Theorem main_converts_every_part (st : State) (p : string) (ps : list string) :
  part (FLAGS st) = Some (p :: ps) ->
  let F := derived_flags st in
  let run := main st in
  let all := map (pandoc_command_of F) (p :: ps)
             ++ typeset_commands F (filename (FLAGS st)) in
  exists evs, children (snd run) = children st ++ evs /\
    commands evs `prefix_of` all /\
    (fst run = Returned tt -> commands evs = all).
Proof.
  intros Hp F run all. destruct run as [r st'] eqn:Hrun. subst run.
  cbn [fst snd].
  destruct (simple_settings_returns st) as (_ & _ & _ & _ & Hname & Hpart & _).
  fold (derived_flags st) in Hname, Hpart. fold F in Hname, Hpart.
  apply main_ran in Hrun as (evs & Hev & Hpre & Hret & _).
  fold F in Hpre, Hret.
  assert (Hall : conversion_commands F ++ typeset_commands F (filename F) = all).
  { unfold conversion_commands. by rewrite Hpart, Hp, Hname. }
  rewrite Hall in Hpre, Hret. eauto.
Qed.

(** X7.  With no part and [pandoc] off, [main] runs no converter at all:
    its children are the commands of the typeset step on [filename], an
    initial segment of them whatever the outcome and all of them when it
    returns. *)
Theorem main_without_pandoc (st : State) :
  part (FLAGS st) = None \/ part (FLAGS st) = Some [] ->
  pandoc (FLAGS st) = false ->
  let F := derived_flags st in
  let run := main st in
  exists evs, children (snd run) = children st ++ evs /\
    commands evs `prefix_of` typeset_commands F (filename (FLAGS st)) /\
    (fst run = Returned tt ->
     commands evs = typeset_commands F (filename (FLAGS st))) /\
    invocations PANDOC (commands evs) = 0%nat.
Proof.
  intros Hp Hpan F run. destruct run as [r st'] eqn:Hrun. subst run.
  cbn [fst snd].
  destruct (simple_settings_returns st) as (_ & _ & _ & _ & Hname & Hpart & Hpandoc).
  fold (derived_flags st) in Hname, Hpart, Hpandoc.
  fold F in Hname, Hpart, Hpandoc.
  apply main_ran in Hrun as (evs & Hev & Hpre & Hret & _).
  fold F in Hpre, Hret.
  assert (Hall : conversion_commands F ++ typeset_commands F (filename F)
                 = typeset_commands F (filename (FLAGS st))).
  { unfold conversion_commands. rewrite Hpart, Hname, Hpandoc, Hpan.
    by destruct Hp as [-> | ->]. }
  rewrite Hall in Hpre, Hret.
  exists evs. split; [done|]. split; [done|]. split; [done|].
  assert (Hheads : Forall (fun cmd => head cmd <> Some PANDOC) (commands evs)).
  { apply Forall_forall. intros cmd Hin.
    apply (elem_of_prefix _ _ _ Hin) in Hpre.
    apply typeset_commands_head in Hpre as [-> | [-> | ->]]; discriminate. }
  by apply invocations_absent.
Qed.

(** X8.  [main] never changes the working directory: whatever the outcome
    it ends in the directory it started in, every child it ran was started
    in that directory, and the flags it ends with are the ones
    [simple_settings] derived; without [simple] they are the flags it
    started with. *)
Theorem main_keeps_directory (st : State) :
  let run := main st in
  os_cwd (snd run) = os_cwd st /\
  (exists evs, children (snd run) = children st ++ evs /\
     Forall (fun ev => exec_cwd ev = os_cwd st) evs) /\
  FLAGS (snd run) = derived_flags st /\
  (truthy_bool (simple (FLAGS st)) = false -> FLAGS (snd run) = FLAGS st).
Proof.
  intros run. destruct run as [r st'] eqn:Hrun. subst run. cbn [fst snd].
  apply main_orderly in Hrun as (evs & Hev & Hcwd & HF & Hdir & _).
  split; [done|]. split; [by exists evs|]. split; [done|].
  intros Hs. rewrite HF. unfold derived_flags. by rewrite simple_settings_off.
Qed.

(** X9.  [main] stops at the first failing tool.  If it returns, every
    child exited with status 0.  If it raises [CalledProcessError], the
    command and status of the exception are those of the last child run,
    the status is not 0, and every child before it exited with status 0.
    If it raises [FileNotFoundError], every child run so far exited with
    status 0. *)
Theorem main_stops_at_first_failure (st : State) :
  let run := main st in
  exists evs, children (snd run) = children st ++ evs /\
    match fst run with
    | Returned _ => Forall (fun ev => exit_status ev = 0) evs
    | Raised (CalledProcessError rc cmd) =>
        exists evs0, evs = evs0 ++ [Exec cmd (os_cwd st) rc] /\ rc <> 0 /\
          Forall (fun ev => exit_status ev = 0) evs0
    | Raised (FileNotFoundError _) =>
        Forall (fun ev => exit_status ev = 0) evs
    end.
Proof.
  intros run. destruct run as [r st'] eqn:Hrun. subst run. cbn [fst snd].
  apply main_orderly in Hrun as (evs & Hev & _ & _ & _ & Ho).
  exists evs. split; [done|].
  destruct r as [[rc cmd|path]|a]; try exact Ho.
  destruct Ho as (evs0 & -> & Hc & Hrc). by exists evs0.
Qed.

(** ** Path names *)

Lemma rsplit_no_sep (t : text) :
  Posixpath.sep ∉ t -> Posixpath.rsplit t = ([], t).
Proof.
  induction t as [|c t IH]; intros Hno; [done|].
  simpl. rewrite IH by (intros ?; apply Hno; by right).
  destruct (Posixpath.is_sep c) eqn:Hc; [|done].
  apply Ascii.eqb_eq in Hc as ->. exfalso. apply Hno. by left.
Qed.

Lemma rsplit_last_sep (h t : text) :
  Posixpath.sep ∉ t ->
  Posixpath.rsplit (h ++ Posixpath.sep :: t) = (h ++ [Posixpath.sep], t).
Proof.
  intros Hno. induction h as [|c h IH]; simpl.
  - by rewrite rsplit_no_sep.
  - rewrite IH. by destruct h.
Qed.

Lemma rsplit_app (p : text) :
  fst (Posixpath.rsplit p) ++ snd (Posixpath.rsplit p) = p.
Proof.
  induction p as [|c p IH]; [done|]. simpl.
  destruct (Posixpath.rsplit p) as [[|h0 h] t]; simpl in *.
  - destruct (Posixpath.is_sep c); simpl; by rewrite IH.
  - by rewrite IH.
Qed.

Lemma rsplit_snd_no_sep (p : text) :
  Posixpath.sep ∉ snd (Posixpath.rsplit p).
Proof.
  induction p as [|c p IH]; [apply not_elem_of_nil|]. simpl.
  destruct (Posixpath.rsplit p) as [[|h0 h] t]; simpl in *; [|done].
  destruct (Posixpath.is_sep c) eqn:Hc; simpl; [done|].
  intros [Heq | Hin]%elem_of_cons; [|done].
  rewrite <- Heq in Hc. unfold Posixpath.is_sep in Hc.
  by rewrite Ascii.eqb_refl in Hc.
Qed.

Lemma rstrip_snoc_sep (l : text) :
  Posixpath.rstrip (l ++ [Posixpath.sep]) = Posixpath.rstrip l.
Proof. induction l as [|c l IH]; [done|]. simpl. by rewrite IH. Qed.

Lemma rstrip_snoc_other (l : text) (c : ascii) :
  Posixpath.is_sep c = false -> Posixpath.rstrip (l ++ [c]) = l ++ [c].
Proof.
  intros Hc. induction l as [|a l IH]; simpl; [by rewrite Hc|].
  rewrite IH. by destruct l.
Qed.

Lemma contains_sep_false (s : string) :
  contains_char "/" s = false -> Posixpath.sep ∉ chars s.
Proof. apply contains_char_false. Qed.

Lemma not_contains_sep (t : text) :
  Posixpath.sep ∉ t -> contains_char "/" (str t) = false.
Proof.
  intros Hno. unfold contains_char. rewrite list_ascii_of_string_of_list_ascii.
  destruct (existsb _ t) eqn:H; [exfalso | done].
  apply existsb_exists in H as (c & Hin & Hc).
  apply Ascii.eqb_eq in Hc as <-. by apply list_elem_of_In in Hin.
Qed.

Lemma endswith_sep_snoc (d : string) :
  Posixpath.endswith_sep d = true -> exists h, chars d = h ++ [Posixpath.sep].
Proof.
  unfold Posixpath.endswith_sep. destruct (last (chars d)) as [c|] eqn:Hl; [|done].
  intros Hc. apply Ascii.eqb_eq in Hc as ->.
  by apply last_Some in Hl.
Qed.

Lemma endswith_other_snoc (d : string) :
  d <> "" -> Posixpath.endswith_sep d = false ->
  exists h c, chars d = h ++ [c] /\ Posixpath.is_sep c = false.
Proof.
  unfold Posixpath.endswith_sep. intros Hne Hend.
  destruct (last (chars d)) as [c|] eqn:Hl.
  - apply last_Some in Hl as (h & Hh). by exists h, c.
  - apply last_None in Hl. destruct d; [done | discriminate].
Qed.

Lemma startswith_sep_false (b : string) :
  contains_char "/" b = false -> Posixpath.startswith_sep b = false.
Proof.
  destruct b as [|c b]; [done|]. unfold contains_char. simpl.
  unfold Posixpath.is_sep, Posixpath.sep. rewrite (Ascii.eqb_sym c).
  intros H. by apply orb_false_elim in H as [H _].
Qed.

Lemma join_path_plain (d name : string) :
  contains_char "/" name = false ->
  join_path d [name] =
    if String.eqb d "" || Posixpath.endswith_sep d then d +:+ name
    else d +:+ "/" +:+ name.
Proof.
  intros Hno. unfold join_path, Posixpath.join. simpl.
  unfold Posixpath.join_step. by rewrite startswith_sep_false.
Qed.

(** X12.  Joining a directory and a name without separator and taking the
    base name gives the name back, whatever the directory. *)
Theorem basename_of_join (d name : string) :
  contains_char "/" name = false ->
  Posixpath.basename (join_path d [name]) = name.
Proof.
  intros Hno. rewrite join_path_plain by done.
  pose proof (contains_sep_false _ Hno) as Hsep.
  unfold Posixpath.basename.
  destruct (String.eqb d "") eqn:Hd.
  - apply String.eqb_eq in Hd as ->. simpl.
    rewrite rsplit_no_sep by done. apply string_of_list_ascii_of_string.
  - simpl. destruct (Posixpath.endswith_sep d) eqn:Hend.
    + apply endswith_sep_snoc in Hend as (h & Hh).
      rewrite chars_app, Hh, <- app_assoc. simpl.
      rewrite rsplit_last_sep by done. apply string_of_list_ascii_of_string.
    + rewrite !chars_app. simpl.
      rewrite rsplit_last_sep by done. apply string_of_list_ascii_of_string.
Qed.

(** X13.  Joining a directory that does not end with a separator and a
    name without separator, and taking the directory name, gives the
    directory back. *)
Theorem dirname_of_join (d name : string) :
  contains_char "/" name = false ->
  Posixpath.endswith_sep d = false ->
  Posixpath.dirname (join_path d [name]) = d.
Proof.
  intros Hno Hend. rewrite join_path_plain by done.
  pose proof (contains_sep_false _ Hno) as Hsep.
  unfold Posixpath.dirname. rewrite Hend.
  destruct (String.eqb d "") eqn:Hd.
  - apply String.eqb_eq in Hd as ->. simpl. by rewrite rsplit_no_sep.
  - simpl. apply String.eqb_neq in Hd.
    destruct (endswith_other_snoc d Hd Hend) as (h & c & Hh & Hc).
    rewrite !chars_app. simpl. rewrite rsplit_last_sep by done. simpl.
    destruct (chars d ++ [Posixpath.sep]) as [|a l] eqn:Hl;
      [by destruct (chars d)|].
    rewrite <- Hl.
    assert (forallb Posixpath.is_sep (chars d ++ [Posixpath.sep]) = false) as ->.
    { rewrite Hh. rewrite !forallb_app. simpl. rewrite Hc. simpl.
      by rewrite andb_false_r. }
    rewrite rstrip_snoc_sep, Hh, rstrip_snoc_other by done.
    rewrite <- Hh. apply string_of_list_ascii_of_string.
Qed.

(** X14.  The base name of a path never contains a separator, and the path
    is what stands before it followed by the base name.  A name without
    separator is its own base name and has the empty directory name. *)
Theorem basename_splits (p : string) :
  contains_char "/" (Posixpath.basename p) = false /\
  (exists head, p = str head +:+ Posixpath.basename p) /\
  (contains_char "/" p = false ->
   Posixpath.basename p = p /\ Posixpath.dirname p = "").
Proof.
  unfold Posixpath.basename. split; [|split].
  - apply not_contains_sep, rsplit_snd_no_sep.
  - exists (fst (Posixpath.rsplit (chars p))).
    rewrite <- str_app, rsplit_app. symmetry.
    apply string_of_list_ascii_of_string.
  - intros Hno. apply contains_sep_false in Hno.
    unfold Posixpath.dirname. rewrite rsplit_no_sep by done. simpl.
    split; [apply string_of_list_ascii_of_string | done].
Qed.

(** X11.  When [part_output] ends with a separator, the file pandoc is told
    to write is the path [os.path.join] makes of [part_output] and the
    target's base name with [.tex] added. *)
Theorem tex_filename_joined (F : Flags) (d target : string) :
  part_output F = Some d ->
  Posixpath.endswith_sep d = true ->
  tex_filename_of F target =
    join_path d [Posixpath.basename target +:+ ".tex"].
Proof.
  intros Hd Hend. unfold tex_filename_of. rewrite Hd.
  assert (truthy_str (Some d) = true) as ->.
  { destruct d; [done | reflexivity]. }
  simpl. unfold join_path, Posixpath.join. simpl. unfold Posixpath.join_step.
  rewrite Hend, orb_true_r.
  assert (Posixpath.startswith_sep (Posixpath.basename target +:+ ".tex") = false)
    as ->; [|done].
  pose proof (rsplit_snd_no_sep (chars target)) as Hno.
  unfold Posixpath.basename.
  destruct (snd (Posixpath.rsplit (chars target))) as [|c t]; [done|].
  simpl. destruct (Posixpath.is_sep c) eqn:Hc; [|done].
  apply Ascii.eqb_eq in Hc as ->. exfalso. apply Hno. by left.
Qed.

(** ** [simple] and the output directory *)

Lemma simple_settings_on st :
  simple (FLAGS st) = Some true ->
  output_dir (derived_flags st)
    = Some (Posixpath.dirname (filename (FLAGS st))) /\
  standalone (derived_flags st) = true.
Proof.
  intros Hs. unfold derived_flags, simple_settings.
  cbv beta iota zeta delta [mbind M_bind mret M_ret get_flags modify_flags].
  rewrite Hs. cbn [truthy_bool FLAGS set_standalone set_output_dir thesis].
  by destruct (thesis (FLAGS st)).
Qed.

Lemma typeset_commands_latex F fname cmd :
  cmd ∈ typeset_commands F fname -> head cmd = Some LATEX ->
  cmd = latex_command_of F fname.
Proof.
  unfold typeset_commands, bibliography_command_of.
  destruct (bibtex F), (biblatex F); intros Hin Hhead;
    repeat (apply elem_of_cons in Hin as [-> | Hin]; [done || discriminate|]);
    by apply elem_of_nil in Hin.
Qed.

Lemma pandoc_args_standalone F :
  standalone F = true ->
  exists rest, pandoc_args_of F = "--verbose" :: "--standalone" :: rest.
Proof.
  intros Hs. unfold pandoc_args_of. cbv zeta. rewrite Hs.
  destruct (bibtex F), (thesis F), (template F), (metadata F), (highlight F),
    (pretty F); eexists; reflexivity.
Qed.

(** X10.  With [simple] set, every run of the typesetting engine by [main]
    is [xelatex -output-directory=<d> -interaction=nonstopmode <filename>.tex]
    with [<d>] the directory name of [filename], and every pandoc run has
    [--standalone] right after [--verbose].  For a [filename] without
    separator [<d>] is empty: the engine is given [-output-directory=] with
    no value. *)
Theorem simple_output_directory (st : State) :
  simple (FLAGS st) = Some true ->
  let name := filename (FLAGS st) in
  let run := main st in
  exists evs, children (snd run) = children st ++ evs /\
    (forall cmd, cmd ∈ commands evs -> head cmd = Some LATEX ->
       cmd = [LATEX; "-output-directory=" +:+ Posixpath.dirname name;
              "-interaction=nonstopmode"; name +:+ ".tex"]) /\
    (forall cmd, cmd ∈ commands evs -> head cmd = Some PANDOC ->
       exists rest, cmd = PANDOC :: "--verbose" :: "--standalone" :: rest) /\
    (contains_char "/" name = false ->
     "-output-directory=" +:+ Posixpath.dirname name = "-output-directory=").
Proof.
  intros Hs name run. destruct run as [r st'] eqn:Hrun. subst run.
  cbn [fst snd].
  destruct (simple_settings_returns st) as (_ & _ & _ & _ & Hname & _).
  fold (derived_flags st) in Hname.
  destruct (simple_settings_on st Hs) as [Hdir Hst].
  apply main_ran in Hrun as (evs & Hev & Hpre & _).
  exists evs. split; [done|]. split; [|split].
  - intros cmd Hin Hhead. apply (elem_of_prefix _ _ _ Hin) in Hpre.
    apply elem_of_app in Hpre as [Hconv | Hts].
    + pose proof (conversion_commands_head (derived_flags st)) as Hall.
      rewrite Forall_forall in Hall. apply Hall in Hconv.
      rewrite Hhead in Hconv. discriminate.
    + apply typeset_commands_latex in Hts; [|done]. subst cmd.
      unfold latex_command_of, latex_args_of. rewrite Hdir, Hname. reflexivity.
  - intros cmd Hin Hhead. apply (elem_of_prefix _ _ _ Hin) in Hpre.
    apply elem_of_app in Hpre as [Hconv | Hts].
    + assert (exists t, cmd = pandoc_command_of (derived_flags st) t) as (t & ->).
      { unfold conversion_commands in Hconv.
        destruct (part (derived_flags st)) as [[|p ps]|].
        2: { apply list_elem_of_In, in_map_iff in Hconv as (t & <- & _). eauto. }
        all: destruct (pandoc (derived_flags st));
          [apply list_elem_of_singleton in Hconv; eauto
          | by apply elem_of_nil in Hconv]. }
      destruct (pandoc_args_standalone _ Hst) as (rest & Hrest).
      unfold pandoc_command_of. rewrite Hrest. eexists. reflexivity.
    + apply typeset_commands_head in Hts. rewrite Hhead in Hts.
      destruct Hts as [| [|]]; discriminate.
  - intros Hno. apply contains_sep_false in Hno.
    unfold Posixpath.dirname. by rewrite rsplit_no_sep.
Qed.

(** ** Files *)

(** X15.  [process_metadata] touches one file and nothing else: whatever
    the outcome, every other file is as before and the flags, the directory
    and the children are unchanged.  If the file is missing it raises
    [FileNotFoundError] with its name and leaves the state as it was.  If the
    file holds plain ASCII text without carriage returns, the call returns
    and the file holds the rewrite of its former content. *)
Theorem process_metadata_frame (path : string) (st : State) :
  let run := process_metadata path st in
  FLAGS (snd run) = FLAGS st /\
  os_cwd (snd run) = os_cwd st /\
  children (snd run) = children st /\
  (forall other, other <> path ->
     files (snd run) !! other = files st !! other) /\
  match files st !! path with
  | None => run = (Raised (FileNotFoundError path), st)
  | Some content =>
      plain_ascii content = true ->
      fst run = Returned tt /\
      files (snd run) !! path = Some (METADATA_sub content)
  end.
Proof.
  intros run. subst run. unfold process_metadata, read_file, write_file.
  cbv beta iota zeta delta [mbind M_bind].
  destruct (files st !! path) as [content|] eqn:Hf; cbn [fst snd].
  - cbn [FLAGS os_cwd children files]. repeat split; try done.
    + intros other Hne. by rewrite lookup_insert_ne.
    + by rewrite lookup_insert_eq.
  - done.
Qed.

(** X16.  What [convert_to_tex] leaves in the files, [left] being what
    pandoc left behind and [out] the file it was told to write.  If pandoc
    exits with a non-zero status, [CalledProcessError] is raised and the
    files are [left]: nothing is rewritten, even with [highlight] on.  If
    pandoc succeeds and [highlight] is off, the call returns and the files
    are [left].  If pandoc succeeds, [highlight] is on and pandoc wrote
    plain ASCII text without carriage returns to [out], the call returns
    with [out] holding the rewrite of that text and the other files as in
    [left]; and if pandoc wrote no such file, [FileNotFoundError] is raised
    for [out]. *)
Theorem convert_to_tex_files (target : string) (st : State) :
  let F := FLAGS st in
  let cmd := pandoc_command_of F target in
  let out := tex_filename_of F target in
  let done := os_exec cmd (os_cwd st) (files st) in
  let left := files_after done in
  let run := convert_to_tex target st in
  (returncode done <> 0 ->
   fst run = Raised (CalledProcessError (returncode done) cmd) /\
   files (snd run) = left) /\
  (returncode done = 0 -> highlight F = false ->
   fst run = Returned tt /\ files (snd run) = left) /\
  (returncode done = 0 -> highlight F = true ->
   forall content, left !! out = Some content -> plain_ascii content = true ->
     fst run = Returned tt /\
     files (snd run) = <[out := METADATA_sub content]> left) /\
  (returncode done = 0 -> highlight F = true -> left !! out = None ->
   fst run = Raised (FileNotFoundError out) /\ files (snd run) = left).
Proof.
  intros F cmd out done left run. subst run.
  unfold convert_to_tex, call_pandoc.
  fold F. fold (pandoc_command_of F target).
  cbv beta iota zeta delta [mbind M_bind mret M_ret get_flags].
  fold F. fold (pandoc_command_of F target). fold cmd. fold out.
  rewrite shell_command_default_run. cbv zeta. fold done. fold left.
  unfold process_metadata, read_file, write_file.
  cbv beta iota zeta delta [mbind M_bind].
  split; [|split; [|split]].
  - intros Hrc. apply Z.eqb_neq in Hrc. by rewrite Hrc.
  - intros Hrc Hh. apply Z.eqb_eq in Hrc. by rewrite Hrc, Hh.
  - intros Hrc Hh content Hc _. apply Z.eqb_eq in Hrc. rewrite Hrc, Hh.
    cbn [files]. by rewrite Hc.
  - intros Hrc Hh Hc. apply Z.eqb_eq in Hrc. rewrite Hrc, Hh.
    cbn [files]. by rewrite Hc.
Qed.

(** ** The rewriter on well-formed annotations *)

Lemma search_literals_none {R} (l s : text) caps (k : Re.cont (R:=R)) :
  starts_with l s = false -> search (Re.literals l) s caps k = None.
Proof.
  revert s. induction l as [|c l IH]; intros s H; [done|].
  destruct s as [|d s]; [done|]. simpl in *.
  rewrite (Ascii.eqb_sym d c). destruct (Ascii.eqb c d); [by apply IH | done].
Qed.

Lemma search_max_repeat {R} lo r s caps (k : Re.cont (R:=R)) :
  search (Re.MaxRepeat lo r) s caps k =
    Re.repeat_loop (search r) true lo k (length s) 0 s caps.
Proof. reflexivity. Qed.

Lemma search_min_repeat {R} lo r s caps (k : Re.cont (R:=R)) :
  search (Re.MinRepeat lo r) s caps k =
    Re.repeat_loop (search r) false lo k (length s) 0 s caps.
Proof. reflexivity. Qed.

Lemma search_subpattern {R} i r s caps (k : Re.cont (R:=R)) :
  search (Re.Subpattern i r) s caps k =
    search r s caps (fun s' caps' =>
      k s' ((i, take (length s - length s') s) :: caps')).
Proof. reflexivity. Qed.

Lemma take_consumed (a b : text) :
  take (length (a ++ b) - length b) (a ++ b) = a.
Proof.
  rewrite length_app. replace (length a + length b - length b)%nat
    with (length a) by lia.
  by rewrite take_app_length.
Qed.

(** A greedy repetition of a set takes the whole run of characters of the
    set it stands before, when what follows the run lets the match go on. *)
Lemma greedy_run {R} items lo (k : Re.cont (R:=R)) (run post : text) caps x :
  Forall (fun c => in_set items c = true) run ->
  match post with c :: _ => in_set items c = false | [] => True end ->
  k post caps = Some x ->
  forall fuel cnt, (lo <= cnt + length run)%nat -> (length run <= fuel)%nat ->
  Re.repeat_loop (search (Re.In items)) true lo k fuel cnt (run ++ post) caps
    = Some x.
Proof.
  intros Hrun Hpost Hk. induction Hrun as [|c run Hc _ IH]; intros fuel cnt Hlo Hfuel.
  - rewrite repeat_loop_unfold. cbv zeta. simpl in *.
    assert (Nat.leb lo cnt = true) as -> by (apply Nat.leb_le; lia).
    rewrite Hk.
    destruct fuel as [|fuel]; [done|].
    destruct post as [|d post]; [done|]. simpl. by rewrite Hpost.
  - destruct fuel as [|fuel]; [simpl in Hfuel; lia|].
    rewrite repeat_loop_unfold. cbv zeta.
    change ((c :: run) ++ post) with (c :: (run ++ post)).
    cbn [Re.search]. rewrite Hc.
    assert (Nat.ltb (length (run ++ post)) (length (c :: run ++ post)) = true)
      as -> by (apply Nat.ltb_lt; simpl; lia).
    rewrite IH by (simpl in *; lia). done.
Qed.

(** A lazy repetition of a set stops at the first place where what follows
    lets the match go on. *)
Lemma lazy_first {R} items lo (k : Re.cont (R:=R)) (pre post : text) caps x :
  Forall (fun c => in_set items c = true) pre ->
  (forall i, (i < length pre)%nat -> k (drop i (pre ++ post)) caps = None) ->
  k post caps = Some x ->
  forall fuel cnt, (lo <= cnt)%nat -> (length pre <= fuel)%nat ->
  Re.repeat_loop (search (Re.In items)) false lo k fuel cnt (pre ++ post) caps
    = Some x.
Proof.
  intros Hpre. revert post.
  induction Hpre as [|c pre Hc _ IH]; intros post Hnone Hk fuel cnt Hlo Hfuel;
    rewrite repeat_loop_unfold; cbv zeta;
    (assert (Nat.leb lo cnt = true) as -> by (apply Nat.leb_le; lia)).
  - simpl. by rewrite Hk.
  - pose proof (Hnone 0%nat) as H0. simpl in H0.
    change ((c :: pre) ++ post) with (c :: (pre ++ post)).
    rewrite H0 by lia.
    destruct fuel as [|fuel]; [simpl in Hfuel; lia|].
    cbn [Re.search]. rewrite Hc.
    assert (Nat.ltb (length (pre ++ post)) (length (c :: pre ++ post)) = true)
      as -> by (apply Nat.ltb_lt; simpl; lia).
    apply IH; [|done|lia|simpl in Hfuel; lia].
    intros i Hi. apply (Hnone (S i)). simpl. lia.
Qed.

Lemma in_any_set (c : ascii) : in_set ANY_SET c = true.
Proof.
  unfold ANY_SET. simpl.
  by destruct (Re.is_space unicode_isspace c).
Qed.

Lemma inside_set items (s : string) :
  has_char_outside items s = false ->
  Forall (fun c => in_set items c = true) (chars s).
Proof.
  unfold has_char_outside. intros H. apply Forall_forall. intros c Hin.
  destruct (in_set items c) eqn:Hc; [done|].
  assert (existsb (fun c => negb (in_set items c)) (chars s) = true);
    [|congruence].
  apply existsb_exists. exists c. split; [by apply list_elem_of_In|].
  by rewrite Hc.
Qed.

Lemma starts_with_long (needle D X : text) :
  (length needle <= length D)%nat ->
  starts_with needle (D ++ X) = starts_with needle D.
Proof.
  revert D. induction needle as [|c needle IH]; intros D Hlen; [done|].
  destruct D as [|d D]; [simpl in Hlen; lia|]. simpl.
  rewrite IH by (simpl in Hlen; lia). done.
Qed.

(** Where [needle] occurs in [body ++ needle] at the end only, it does not
    occur earlier whatever is put after. *)
Lemma first_occurrence (needle body rest : text) (i : nat) :
  occurrences_from needle 0 (body ++ needle) = [length body] ->
  (i < length body)%nat ->
  starts_with needle (drop i (body ++ needle ++ rest)) = false.
Proof.
  intros Hocc Hi. rewrite app_assoc, drop_app_le by (rewrite length_app; lia).
  rewrite starts_with_long by (rewrite length_drop, length_app; lia).
  destruct (starts_with needle (drop i (body ++ needle))) eqn:Hs; [|done].
  apply (occurrences_from_complete _ 0) in Hs; [|rewrite length_app; lia].
  rewrite Hocc in Hs. apply list_elem_of_singleton in Hs. simpl in Hs. lia.
Qed.

Lemma sub_scan_skip r repl (m post : text) :
  Re.sub_scan unicode_isalnum unicode_isspace r repl (length m) (m ++ post) =
  Re.sub_scan unicode_isalnum unicode_isspace r repl 0 post.
Proof. induction m as [|c m IH]; [done | exact IH]. Qed.

(** Where the pattern matches, [sub] puts the replacement and goes on after
    the match. *)
Lemma sub_scan_match r repl (m post : text) caps :
  m <> [] ->
  Re.match_here unicode_isalnum unicode_isspace r (m ++ post) = Some (caps, post) ->
  Re.sub_scan unicode_isalnum unicode_isspace r repl 0 (m ++ post) =
  repl caps ++ Re.sub_scan unicode_isalnum unicode_isspace r repl 0 post.
Proof.
  intros Hm Hmatch. destruct m as [|c m]; [done|].
  change ((c :: m) ++ post) with (c :: (m ++ post)) in *.
  cbn [Re.sub_scan]. rewrite Hmatch.
  replace (length (c :: m ++ post) - length post)%nat with (S (length m))
    by (simpl; rewrite length_app; lia).
  by rewrite sub_scan_skip.
Qed.

Lemma search_literal_cons {R} c s caps (k : Re.cont (R:=R)) :
  search (Re.Literal c) (c :: s) caps k = k s caps.
Proof. simpl. by rewrite Ascii.eqb_refl. Qed.

(** The match found at a well-formed annotation: the three groups are the
    label, the caption and the Shaded block up to its first end marker. *)
Lemma wellformed_annotation_match (L C G body rest : text) :
  Forall (fun c => in_set LABEL_SET c = true) L -> L <> [] ->
  Forall (fun c => in_set CAPTION_SET c = true) C -> C <> [] ->
  Forall (fun c => in_set GAP_SET c = true) G -> G <> [] ->
  occurrences_from (chars "\end{Shaded}") 0 (body ++ chars "\end{Shaded}")
    = [length body] ->
  Re.match_here unicode_isalnum unicode_isspace METADATA_REGEX
    (chars "\codeMetadata[" ++ L ++ chars "]{" ++ C ++ chars "}" ++ G
     ++ chars "\begin{Shaded}" ++ body ++ chars "\end{Shaded}" ++ rest)
  = Some ([(3%nat, chars "\begin{Shaded}" ++ body ++ chars "\end{Shaded}");
           (2%nat, C); (1%nat, L)], rest).
Proof.
  intros HL HLne HC HCne HG HGne Hbody.
  unfold Re.match_here, METADATA_REGEX.
  rewrite search_seq, search_literals_app.
  rewrite search_seq, search_group_repeat.
  apply greedy_run; [exact HL | reflexivity | | destruct L; [done | simpl; lia]
                    | rewrite length_app; lia].
  rewrite take_consumed.
  rewrite search_seq, search_literals_app.
  rewrite search_seq, search_group_repeat.
  apply greedy_run; [exact HC | reflexivity | | destruct C; [done | simpl; lia]
                    | rewrite length_app; lia].
  rewrite take_consumed.
  rewrite search_seq. change (chars "}" ++ ?t) with ("}"%char :: t).
  rewrite search_literal_cons.
  rewrite search_seq, search_max_repeat.
  apply greedy_run; [exact HG | reflexivity | | destruct G; [done | simpl; lia]
                    | rewrite length_app; lia].
  rewrite search_subpattern. unfold SHADED_PATTERN.
  rewrite search_seq, search_literals_app.
  rewrite search_seq, search_min_repeat.
  apply lazy_first; [| | | lia | rewrite length_app; lia].
  - apply Forall_forall. intros c _. apply in_any_set.
  - intros i Hi. apply search_literals_none. by apply first_occurrence.
  - rewrite search_literals_app.
    rewrite (app_assoc (chars "\begin{Shaded}")), (app_assoc _ (chars "\end{Shaded}")).
    rewrite take_consumed. by rewrite <- app_assoc.
Qed.

Lemma match_needs_opener (s : text) :
  starts_with (chars "\codeMetadata[") s = false ->
  Re.match_here unicode_isalnum unicode_isspace METADATA_REGEX s = None.
Proof.
  intros H. unfold Re.match_here, METADATA_REGEX.
  rewrite search_seq. by apply search_literals_none.
Qed.

Lemma no_opener_no_match (s : text) (i : nat) :
  i ∉ occurrences_from (chars "\codeMetadata[") 0 s ->
  Re.match_here unicode_isalnum unicode_isspace METADATA_REGEX (drop i s) = None.
Proof.
  intros Hi. apply match_needs_opener.
  destruct (starts_with _ (drop i s)) eqn:Hs; [exfalso | done].
  destruct (decide (i <= length s)%nat) as [Hle | Hgt].
  - apply Hi. by apply (occurrences_from_complete _ 0).
  - rewrite drop_ge in Hs by lia. discriminate.
Qed.

(** Where the pattern does not match at the one place the opener stands,
    the text is copied. *)
Lemma unmatched_text_copied (before block : string) :
  Re.match_here unicode_isalnum unicode_isspace METADATA_REGEX (chars block) = None ->
  occurrences "\codeMetadata[" (before +:+ block) = [String.length before] ->
  METADATA_sub (before +:+ block) = before +:+ block.
Proof.
  intros Hhere Hocc. unfold METADATA_sub, Re.sub.
  rewrite sub_scan_no_match; [apply string_of_list_ascii_of_string|].
  intros i. destruct (decide (i = String.length before)) as [-> | Hi].
  - by rewrite chars_app, <- chars_length, drop_app_length.
  - apply no_opener_no_match. unfold occurrences in Hocc. rewrite Hocc.
    by intros ?%list_elem_of_singleton.
Qed.

(** X17.  A text in which the annotation opener does not occur is returned
    as it is. *)
Theorem text_without_opener_unchanged (content : string) :
  occurrences "\codeMetadata[" content = [] ->
  METADATA_sub content = content.
Proof.
  intros Hocc. unfold METADATA_sub, Re.sub.
  rewrite sub_scan_no_match; [apply string_of_list_ascii_of_string|].
  intros i. apply no_opener_no_match. unfold occurrences in Hocc.
  rewrite Hocc. apply not_elem_of_nil.
Qed.

(** X18.  A well-formed annotation is rewritten into a listing.  Let the
    label be a non-empty run of letters, digits and colons, the caption a
    non-empty run of characters of its set, the gap a non-empty run of
    white space, and let the end marker not occur in the body before its
    end; let no annotation open in the text before.  Then the rewrite
    copies the text before, puts the listing made of the Shaded block,
    character for character, the label and the caption in place of the
    annotation and the block, and goes on with the text after. *)
Theorem wellformed_annotation_rewritten
    (before label caption gap body after : string) :
  label <> "" -> caption <> "" -> gap <> "" ->
  has_char_outside LABEL_SET label = false ->
  has_char_outside CAPTION_SET caption = false ->
  has_char_outside GAP_SET gap = false ->
  occurrences "\end{Shaded}" (body +:+ "\end{Shaded}") = [String.length body] ->
  occurrences "\codeMetadata[" (before +:+ "\codeMetadata[")
    = [String.length before] ->
  METADATA_sub (before +:+ annotated_block label caption gap body +:+ after) =
    before
    +:+ REPLACEMENT ("\begin{Shaded}" +:+ body +:+ "\end{Shaded}") label caption
    +:+ METADATA_sub after.
Proof.
  intros Hl Hc Hg HL HC HG Hbody Hbefore.
  apply inside_set in HL, HC, HG.
  assert (Hne : forall s : string, s <> "" -> chars s <> []).
  { intros [|c s] Hs; [done | discriminate]. }
  unfold occurrences in Hbody, Hbefore. rewrite chars_app in Hbody, Hbefore.
  rewrite <- chars_length in Hbody, Hbefore.
  pose proof (wellformed_annotation_match _ _ _ _ (chars after)
                HL (Hne _ Hl) HC (Hne _ Hc) HG (Hne _ Hg) Hbody) as Hmatch.
  unfold METADATA_sub, Re.sub.
  assert (Hshape : chars (annotated_block label caption gap body +:+ after) =
    chars "\codeMetadata[" ++ chars label ++ chars "]{" ++ chars caption
    ++ chars "}" ++ chars gap ++ chars "\begin{Shaded}" ++ chars body
    ++ chars "\end{Shaded}" ++ chars after).
  { unfold annotated_block. by rewrite !chars_app, <- !app_assoc. }
  rewrite chars_app, sub_scan_prefix.
  2: { intros i Hi. apply match_needs_opener. rewrite Hshape.
       by apply first_occurrence. }
  rewrite chars_app.
  rewrite (sub_scan_match _ _ _ _
             [(3%nat, chars "\begin{Shaded}" ++ chars body ++ chars "\end{Shaded}");
              (2%nat, chars caption); (1%nat, chars label)]).
  - unfold replacement_of. cbn [Re.group Nat.eqb percent_s].
    rewrite !str_app, !string_of_list_ascii_of_string. done.
  - unfold annotated_block. by destruct (chars _).
  - rewrite <- chars_app, Hshape. exact Hmatch.
Qed.

(** X19.  Each part of the annotation is required.  With the label
    delimited by the first closing bracket and the caption by the first
    closing brace, an annotation whose label is empty, whose caption is
    empty, or which is followed by the Shaded block with no white space in
    between is not matched; where the opener occurs at this place only, the
    text is returned unchanged. *)
Theorem annotation_parts_required
    (before label caption gap body after : string) :
  let block := annotated_block label caption gap body in
  contains_char "]" label = false ->
  contains_char "}" caption = false ->
  label = "" \/ caption = "" \/ gap = "" ->
  Re.match_here unicode_isalnum unicode_isspace METADATA_REGEX
    (chars (block +:+ after)) = None /\
  (occurrences "\codeMetadata[" (before +:+ block +:+ after)
     = [String.length before] ->
   METADATA_sub (before +:+ block +:+ after) = before +:+ block +:+ after).
Proof.
  intros block Hl Hc Hempty.
  assert (Hhere : Re.match_here unicode_isalnum unicode_isspace METADATA_REGEX
                    (chars (block +:+ after)) = None).
  { apply contains_char_false in Hl, Hc.
    destruct (Re.match_here _ _ _ _) as [x|] eqn:H; [exfalso | done].
    subst block. unfold annotated_block in H.
    rewrite !chars_app, <- !app_assoc in H.
    unfold Re.match_here, METADATA_REGEX in H.
    rewrite search_seq, search_literals_app in H.
    rewrite search_seq, search_group_repeat in H.
    apply repeat_set_inv in H as (run & post & Heq & Hrun & Hlen & H).
    rewrite search_seq in H.
    apply search_literals_inv in H as (post' & -> & H).
    change (chars "]{") with ["]"; "{"]%char in Heq. simpl in Heq.
    apply split_at_first in Heq as [<- Heq];
      [| exact Hl | by apply (not_in_run LABEL_SET)].
    injection Heq as <-.
    rewrite search_seq, search_group_repeat in H.
    apply repeat_set_inv in H as (run2 & post2 & Heq & Hrun2 & Hlen2 & H).
    rewrite search_seq in H.
    apply search_literal_inv in H as (post2' & -> & H).
    apply split_at_first in Heq as [<- Heq];
      [| exact Hc | by apply (not_in_run CAPTION_SET)].
    subst post2'.
    destruct Hempty as [-> | [-> | ->]]; [simpl in Hlen; lia | simpl in Hlen2; lia|].
    rewrite search_seq, search_max_repeat in H.
    apply repeat_set_inv in H as (run3 & post3 & Heq & Hrun3 & Hlen3 & _).
    destruct run3 as [|c run3]; [simpl in Hlen3; lia|].
    simpl in Heq. injection Heq as <- _.
    apply Forall_cons in Hrun3 as [Hbad _]. vm_compute in Hbad. discriminate. }
  split; [exact Hhere|]. intros Hocc.
  by apply unmatched_text_copied.
Qed.

End Program.

(** * Concrete runs *)

(** C1 as stated fails: with [bibtex] off and every child succeeding,
    [build_pdf] runs the engine twice, not once; with [bibtex] on and
    [biblatex] off it runs the engine three times, not twice. *)
Lemma typeset_once_counterexample :
  let run F := snd (build_pdf (exit_with 0) "main" (initial_state F)) in
  let plain := default_flags "main" in
  let bib := bibliography_flags "main" in
  (bibtex plain = false /\
   commands (children (run plain)) =
     [["xelatex"; "-interaction=nonstopmode"; "main.tex"];
      ["xelatex"; "-interaction=nonstopmode"; "main.tex"]] /\
   invocations LATEX (commands (children (run plain))) <> 1%nat) /\
  (bibtex bib = true /\ biblatex bib = false /\
   commands (children (run bib)) =
     [["xelatex"; "-interaction=nonstopmode"; "main.tex"];
      ["biber"; "main"];
      ["xelatex"; "-interaction=nonstopmode"; "main.tex"];
      ["xelatex"; "-interaction=nonstopmode"; "main.tex"]] /\
   invocations LATEX (commands (children (run bib))) <> 2%nat).
Proof. vm_compute. repeat split; discriminate. Qed.

Lemma build_pdf_invocations_witness :
  let st := initial_state (bibliography_flags "main") in
  let st' := snd (build_pdf (exit_with 0) "main" st) in
  build_pdf (exit_with 0) "main" st = (Returned tt, st') /\
  exists evs, children st' = children st ++ evs /\
    invocations LATEX (commands evs) = 3%nat /\
    invocations BIBER (commands evs) = 1%nat.
Proof.
  intros st st'.
  assert (Hrun : build_pdf (exit_with 0) "main" st = (Returned tt, st'))
    by reflexivity.
  split; [exact Hrun|].
  destruct (build_pdf_invocations (exit_with 0) "main" st st' Hrun)
    as (evs & Hev & _ & Hbib).
  exists evs. split; [exact Hev|].
  destruct (Hbib eq_refl eq_refl) as (_ & Hl & Hb). split; [exact Hl | exact Hb].
Defined.


(** C2 fails on the code: [shell_command] changes to [/tmp], the child exits
    with status 1, [CalledProcessError] is raised and the process is left
    in [/tmp], not in the directory it started from. *)
Lemma shell_command_failure_keeps_cwd :
  let st := initial_state (default_flags "main") in
  let cmd := ["xelatex"; "main.tex"] in
  let outcome := shell_command (exit_with 1) cmd true false false (Some "/tmp") st in
  os_cwd st = "/home/user" /\
  fst outcome = Raised (CalledProcessError 1 cmd) /\
  os_cwd (snd outcome) = "/tmp" /\
  os_cwd (snd outcome) <> os_cwd st.
Proof. vm_compute. repeat split; discriminate. Qed.

(** The same slip on the path that returns early: with [output=True] the
    call returns the child's output and the directory is not put back
    either. *)
Lemma shell_command_output_keeps_cwd :
  let st := initial_state (default_flags "main") in
  let outcome := shell_command (exit_with 0) ["pwd"] true true false (Some "/tmp") st in
  fst outcome = Returned (Some "") /\ os_cwd (snd outcome) = "/tmp".
Proof. vm_compute. repeat split. Qed.

(** C8 as stated fails where [throw] is false: the [shell] flag is not looked
    at on that path, and the child is the command itself, not a shell. *)
Lemma shell_flag_counterexample :
  let st := initial_state (default_flags "main") in
  let cmd := ["make"; "pdf"] in
  let outcome := shell_command (exit_with 3) cmd false false true None st in
  fst outcome = Returned None /\
  commands (children (snd outcome)) = [cmd] /\
  commands (children (snd outcome)) <> [["/bin/sh"; "-c"] ++ cmd].
Proof. vm_compute. repeat split; discriminate. Qed.

Lemma shell_flag_never_raises_witness :
  let st := initial_state (default_flags "main") in
  let cmd := ["xelatex"; "main.tex"] in
  returncode (exit_with 2 cmd (os_cwd st) (files st)) <> 0 /\
  exists st',
    shell_command (exit_with 2) cmd true false false None st =
      (Raised (CalledProcessError 2 cmd), st').
Proof.
  intros st cmd.
  assert (Hrc : returncode (exit_with 2 cmd (os_cwd st) (files st)) <> 0)
    by (simpl; lia).
  split; [exact Hrc|].
  exact (proj2 (shell_flag_never_raises (exit_with 2) cmd true None st) false Hrc).
Defined.


Lemma simple_settings_derivation_witness :
  simple (FLAGS (initial_state simple_thesis_flags)) = Some true /\
  exists st',
    simple_settings (initial_state simple_thesis_flags) = (Returned tt, st') /\
    standalone (FLAGS st') = true /\
    output_dir (FLAGS st') = Some "docs" /\
    pretty (FLAGS st') = false.
Proof.
  split; [reflexivity|].
  destruct (simple_settings_derivation (initial_state simple_thesis_flags) eq_refl)
    as (st' & Hrun & Hst & Hdir & Hpretty & _).
  exists st'. split; [exact Hrun|]. split; [exact Hst|].
  split; [exact Hdir | exact Hpretty].
Defined.


(** C3 as stated fails: with [part_output] set to [out] and the target
    [chapters/a], pandoc is told to write [outa.tex]; joining the directory
    and the base name with a separator would give [out/a.tex]. *)
Lemma intermediate_file_path_counterexample :
  let st := initial_state part_output_flags in
  let st' := snd (convert_to_tex "/opt/buildlatex" (exit_with 0) no_unicode
                    no_unicode "chapters/a" st) in
  part_output (FLAGS st) = Some "out" /\
  commands (children st') =
    [["pandoc"; "--verbose"; "-f"; "markdown"; "-t"; "latex";
      "-o"; "outa.tex"; "chapters/a.md"]] /\
  tex_filename_of (FLAGS st) "chapters/a"
    <> join_path "out" [Posixpath.basename "chapters/a" +:+ ".tex"].
Proof. vm_compute. repeat split; discriminate. Qed.

Lemma intermediate_file_path_witness :
  let st := initial_state part_output_flags in
  let st' := snd (convert_to_tex "/opt/buildlatex" (exit_with 0) no_unicode
                    no_unicode "chapters/a" st) in
  part_output (FLAGS st) = Some "out" /\ "out" <> "" /\
  exists out,
    ran st st'
      [["pandoc"; "--verbose"; "-f"; "markdown"; "-t"; "latex";
        "-o"; out; "chapters/a.md"]] /\
    out = "outa.tex".
Proof.
  intros st st'.
  assert (Hd : part_output (FLAGS st) = Some "out") by reflexivity.
  assert (Hne : "out" <> "") by discriminate.
  split; [exact Hd|]. split; [exact Hne|].
  destruct (intermediate_file_path "/opt/buildlatex" (exit_with 0) no_unicode
              no_unicode "chapters/a" st) as (out & Hran & _ & Hset & _).
  exists out. split; [exact Hran|]. exact (Hset "out" Hd Hne).
Defined.


Lemma parts_then_typeset_witness :
  let st := initial_state parts_flags in
  let run := main "/opt/buildlatex" (exit_with 0) no_unicode no_unicode st in
  part (FLAGS st) = Some ["a"; "b"] /\ filename (FLAGS st) = "main" /\
  run = (Returned tt, snd run) /\
  exists evs, children (snd run) = children st ++ evs /\
    commands evs =
      [["pandoc"; "--verbose"; "-f"; "markdown"; "-t"; "latex";
        "-o"; "a.tex"; "a.md"];
       ["pandoc"; "--verbose"; "-f"; "markdown"; "-t"; "latex";
        "-o"; "b.tex"; "b.md"];
       ["xelatex"; "-interaction=nonstopmode"; "main.tex"];
       ["xelatex"; "-interaction=nonstopmode"; "main.tex"]].
Proof.
  intros st run.
  assert (Hp : part (FLAGS st) = Some ["a"; "b"]) by reflexivity.
  assert (Hf : filename (FLAGS st) = "main") by reflexivity.
  assert (Hrun : run = (Returned tt, snd run)) by reflexivity.
  split; [exact Hp|]. split; [exact Hf|]. split; [exact Hrun|].
  destruct (proj1 (parts_then_typeset "/opt/buildlatex" (exit_with 0) no_unicode
                     no_unicode st) Hp Hf _ _ Hrun)
    as (evs & Hev & _ & Hret & _).
  exists evs. split; [exact Hev|]. exact (Hret eq_refl).
Defined.

Lemma conversion_failure_stops_build_witness :
  let st := initial_state (default_flags "main") in
  let run := main "/opt/buildlatex" pandoc_fails no_unicode no_unicode st in
  let cmd := ["pandoc"; "--verbose"; "-f"; "markdown"; "-t"; "latex";
              "-o"; "main.tex"; "main.md"] in
  run = (Raised (CalledProcessError 1 cmd), snd run) /\
  head cmd = Some PANDOC /\
  exists evs, children (snd run) = children st ++ evs /\
    invocations LATEX (commands evs) = 0%nat.
Proof.
  intros st run cmd.
  assert (Hrun : run = (Raised (CalledProcessError 1 cmd), snd run))
    by reflexivity.
  assert (Hhead : head cmd = Some PANDOC) by reflexivity.
  split; [exact Hrun|]. split; [exact Hhead|].
  exact (proj2 (conversion_failure_stops_build "/opt/buildlatex" pandoc_fails
                  no_unicode no_unicode st) 1 cmd (snd run) Hrun Hhead).
Defined.

(** C10 as stated fails: an annotation whose label has a hyphen is not
    matched itself, but a well-formed annotation inside its Shaded block is,
    so the occurrence does not come out unchanged; likewise when what
    stands between the brackets holds a well-formed annotation. *)
Lemma malformed_annotation_counterexample :
  let inner := annotated_block "in:1" "Inner" NL "CODE" in
  let nested := annotated_block "fig-1" "Outer" NL (NL +:+ inner +:+ NL) in
  let label := "x]{y}" +:+ NL +:+ "\begin{Shaded}z\end{Shaded}" in
  let bracketed := annotated_block label "Outer" NL "CODE" in
  (has_char_outside no_unicode no_unicode LABEL_SET "fig-1" = true /\
   contains_char "]" "fig-1" = false /\ contains_char "}" "Outer" = false /\
   METADATA_sub no_unicode no_unicode nested =
     "\codeMetadata[fig-1]{Outer}" +:+ NL +:+ "\begin{Shaded}" +:+ NL +:+
     REPLACEMENT "\begin{Shaded}CODE\end{Shaded}" "in:1" "Inner" +:+
     NL +:+ "\end{Shaded}" /\
   METADATA_sub no_unicode no_unicode nested <> nested) /\
  (has_char_outside no_unicode no_unicode LABEL_SET label = true /\
   METADATA_sub no_unicode no_unicode bracketed =
     REPLACEMENT "\begin{Shaded}z\end{Shaded}" "x" "y" +:+
     "]{Outer}" +:+ NL +:+ "\begin{Shaded}CODE\end{Shaded}" /\
   METADATA_sub no_unicode no_unicode bracketed <> bracketed).
Proof. vm_compute. repeat split; discriminate. Qed.

Lemma malformed_annotation_untouched_witness :
  let label := "fig:1" in
  let caption := "A title, with a comma" in
  let block := annotated_block label caption NL (NL +:+ "CODE" +:+ NL) in
  let after := " and " +:+ annotated_block "fig:2" "Fine" NL "x" in
  contains_char "]" label = false /\
  contains_char "}" caption = false /\
  has_char_outside no_unicode no_unicode CAPTION_SET caption = true /\
  occurrences "\codeMetadata[" ("See " +:+ block) = [4%nat] /\
  METADATA_sub no_unicode no_unicode ("See " +:+ block +:+ after) =
    "See " +:+ block +:+ METADATA_sub no_unicode no_unicode after.
Proof.
  intros label caption block after.
  assert (Hl : contains_char "]" label = false) by reflexivity.
  assert (Hc : contains_char "}" caption = false) by reflexivity.
  assert (Hbad : has_char_outside no_unicode no_unicode CAPTION_SET caption = true)
    by reflexivity.
  assert (Hocc : occurrences "\codeMetadata[" ("See " +:+ block) = [4%nat])
    by reflexivity.
  split; [exact Hl|]. split; [exact Hc|]. split; [exact Hbad|].
  split; [exact Hocc|].
  exact (proj1 (proj2 (malformed_annotation_untouched no_unicode no_unicode
                         "See " label caption NL (NL +:+ "CODE" +:+ NL) after
                         Hl Hc (or_intror Hbad))) Hocc).
Defined.

(** * Concrete runs for the further properties *)

Lemma shell_command_returns_restores_witness :
  let st := initial_state (default_flags "main") in
  let run := shell_command (exit_with 0) ["ls"] true false true (Some "sub") st in
  Posixpath.startswith_sep (os_cwd st) = true /\
  run = (Returned None, snd run) /\
  os_cwd (snd run) = "/home/user".
Proof.
  intros st run.
  assert (Habs : Posixpath.startswith_sep (os_cwd st) = true) by reflexivity.
  assert (Hrun : run = (Returned None, snd run)) by reflexivity.
  split; [exact Habs|]. split; [exact Hrun|].
  exact (shell_command_returns_restores (exit_with 0) ["ls"] true true
           (Some "sub") st None (snd run) Habs Hrun).
Defined.

Lemma build_pdf_bibtex_witness :
  let st := initial_state (bibtex_flags "main") in
  let run := build_pdf (exit_with 0) "main" st in
  run = (Returned tt, snd run) /\
  exists evs, children (snd run) = children st ++ evs /\
    commands evs =
      [["xelatex"; "-interaction=nonstopmode"; "main.tex"];
       ["bibtex"; "main"];
       ["xelatex"; "-interaction=nonstopmode"; "main.tex"];
       ["xelatex"; "-interaction=nonstopmode"; "main.tex"]].
Proof.
  intros st run.
  assert (Hrun : run = (Returned tt, snd run)) by reflexivity.
  split; [exact Hrun|].
  destruct (build_pdf_bibtex (exit_with 0) "main" st (snd run)
              eq_refl eq_refl Hrun) as (evs & Hev & Hcmds & _).
  exists evs. split; [exact Hev | exact Hcmds].
Defined.

Lemma main_converts_every_part_witness :
  let st := initial_state parts_no_pandoc_flags in
  let run := main "/opt/buildlatex" (exit_with 0) no_unicode no_unicode st in
  part (FLAGS st) = Some ["a"; "b"] /\ pandoc (FLAGS st) = false /\
  exists evs, children (snd run) = children st ++ evs /\
    commands evs =
      [["pandoc"; "--verbose"; "-f"; "markdown"; "-t"; "latex";
        "-o"; "a.tex"; "a.md"];
       ["pandoc"; "--verbose"; "-f"; "markdown"; "-t"; "latex";
        "-o"; "b.tex"; "b.md"];
       ["xelatex"; "-interaction=nonstopmode"; "main.tex"];
       ["xelatex"; "-interaction=nonstopmode"; "main.tex"]].
Proof.
  intros st run.
  assert (Hp : part (FLAGS st) = Some ["a"; "b"]) by reflexivity.
  split; [exact Hp|]. split; [reflexivity|].
  destruct (main_converts_every_part "/opt/buildlatex" (exit_with 0) no_unicode
              no_unicode st "a" ["b"] Hp) as (evs & Hev & _ & Hret).
  exists evs. split; [exact Hev | exact (Hret eq_refl)].
Defined.

Lemma main_without_pandoc_witness :
  let st := initial_state (no_pandoc_flags "main") in
  let run := main "/opt/buildlatex" (exit_with 0) no_unicode no_unicode st in
  part (FLAGS st) = None /\ pandoc (FLAGS st) = false /\
  exists evs, children (snd run) = children st ++ evs /\
    commands evs =
      [["xelatex"; "-interaction=nonstopmode"; "main.tex"];
       ["xelatex"; "-interaction=nonstopmode"; "main.tex"]].
Proof.
  intros st run.
  assert (Hp : part (FLAGS st) = None) by reflexivity.
  assert (Hpan : pandoc (FLAGS st) = false) by reflexivity.
  split; [exact Hp|]. split; [exact Hpan|].
  destruct (main_without_pandoc "/opt/buildlatex" (exit_with 0) no_unicode
              no_unicode st (or_introl Hp) Hpan) as (evs & Hev & _ & Hret & _).
  exists evs. split; [exact Hev | exact (Hret eq_refl)].
Defined.

Lemma basename_of_join_witness :
  contains_char "/" "a.tex" = false /\
  Posixpath.basename (join_path "out/parts" ["a.tex"]) = "a.tex".
Proof.
  assert (H : contains_char "/" "a.tex" = false) by reflexivity.
  split; [exact H | exact (basename_of_join "out/parts" "a.tex" H)].
Defined.

Lemma dirname_of_join_witness :
  contains_char "/" "report" = false /\
  Posixpath.endswith_sep "docs/2024" = false /\
  Posixpath.dirname (join_path "docs/2024" ["report"]) = "docs/2024".
Proof.
  assert (H : contains_char "/" "report" = false) by reflexivity.
  assert (He : Posixpath.endswith_sep "docs/2024" = false) by reflexivity.
  split; [exact H|]. split; [exact He|].
  exact (dirname_of_join "docs/2024" "report" H He).
Defined.

Lemma basename_splits_witness :
  contains_char "/" "main" = false /\
  Posixpath.basename "main" = "main" /\ Posixpath.dirname "main" = "".
Proof.
  assert (H : contains_char "/" "main" = false) by reflexivity.
  split; [exact H|].
  exact (proj2 (proj2 (basename_splits "main")) H).
Defined.

Lemma tex_filename_joined_witness :
  let F := trailing_part_output_flags in
  part_output F = Some "out/" /\
  Posixpath.endswith_sep "out/" = true /\
  tex_filename_of F "chapters/a" = join_path "out/" ["a.tex"].
Proof.
  intros F.
  assert (Hd : part_output F = Some "out/") by reflexivity.
  assert (He : Posixpath.endswith_sep "out/" = true) by reflexivity.
  split; [exact Hd|]. split; [exact He|].
  exact (tex_filename_joined F "out/" "chapters/a" Hd He).
Defined.

Lemma simple_output_directory_witness :
  let st := initial_state (simple_flags "main") in
  let run := main "/opt/buildlatex" (exit_with 0) no_unicode no_unicode st in
  simple (FLAGS st) = Some true /\
  exists evs, children (snd run) = children st ++ evs /\
    forall cmd, cmd ∈ commands evs -> head cmd = Some LATEX ->
      cmd = ["xelatex"; "-output-directory="; "-interaction=nonstopmode";
             "main.tex"].
Proof.
  intros st run.
  assert (Hs : simple (FLAGS st) = Some true) by reflexivity.
  split; [exact Hs|].
  destruct (simple_output_directory "/opt/buildlatex" (exit_with 0) no_unicode
              no_unicode st Hs) as (evs & Hev & Hlatex & _).
  exists evs. split; [exact Hev | exact Hlatex].
Defined.

Lemma process_metadata_frame_witness :
  let st := mkState (default_flags "main") "/home/user"
              {["main.tex" := "plain text"]} [] in
  let run := process_metadata no_unicode no_unicode "main.tex" st in
  files st !! "main.tex" = Some "plain text" /\
  plain_ascii "plain text" = true /\
  fst run = Returned tt /\
  files (snd run) !! "main.tex" = Some "plain text".
Proof.
  intros st run.
  assert (Hplain : plain_ascii "plain text" = true) by reflexivity.
  split; [reflexivity|]. split; [exact Hplain|].
  exact (proj2 (proj2 (proj2 (proj2
           (process_metadata_frame no_unicode no_unicode "main.tex" st))))
           Hplain).
Defined.

Lemma convert_to_tex_files_witness :
  let st := initial_state highlight_flags in
  let cmd := ["pandoc"; "--verbose"; "--syntax-definition";
              "/opt/buildlatex/third_party/typescript.xml";
              "--highlight=tango"; "-f"; "markdown"; "-t"; "latex";
              "-o"; "main.tex"; "main.md"] in
  let run := convert_to_tex "/opt/buildlatex" (pandoc_writes "main.tex" "plain")
               no_unicode no_unicode "main" st in
  returncode (pandoc_writes "main.tex" "plain" cmd (os_cwd st) (files st)) = 0 /\
  highlight (FLAGS st) = true /\
  plain_ascii "plain" = true /\
  fst run = Returned tt /\
  files (snd run) !! "main.tex" = Some "plain".
Proof.
  intros st cmd run.
  assert (Hrc : returncode (pandoc_writes "main.tex" "plain" cmd (os_cwd st)
                              (files st)) = 0) by reflexivity.
  assert (Hh : highlight (FLAGS st) = true) by reflexivity.
  assert (Hplain : plain_ascii "plain" = true) by reflexivity.
  split; [exact Hrc|]. split; [exact Hh|]. split; [exact Hplain|].
  destruct (proj1 (proj2 (proj2 (convert_to_tex_files "/opt/buildlatex"
              (pandoc_writes "main.tex" "plain") no_unicode no_unicode "main" st)))
              Hrc Hh "plain" eq_refl Hplain) as [Hret Hfiles].
  split; [exact Hret|].
  subst run. rewrite Hfiles. reflexivity.
Defined.

Lemma text_without_opener_unchanged_witness :
  let content := "\section{Intro}" +:+ NL +:+ "\begin{Shaded}x\end{Shaded}" in
  occurrences "\codeMetadata[" content = [] /\
  METADATA_sub no_unicode no_unicode content = content.
Proof.
  intros content.
  assert (H : occurrences "\codeMetadata[" content = []) by reflexivity.
  split; [exact H|].
  exact (text_without_opener_unchanged no_unicode no_unicode content H).
Defined.

Lemma wellformed_annotation_rewritten_witness :
  let body := NL +:+ "\KeywordTok{let} x = 1;" +:+ NL in
  let before := "See the code." +:+ NL in
  "fig:1" <> "" /\ "A title (short)" <> "" /\ NL <> "" /\
  has_char_outside no_unicode no_unicode LABEL_SET "fig:1" = false /\
  has_char_outside no_unicode no_unicode CAPTION_SET "A title (short)" = false /\
  has_char_outside no_unicode no_unicode GAP_SET NL = false /\
  occurrences "\end{Shaded}" (body +:+ "\end{Shaded}") = [String.length body] /\
  occurrences "\codeMetadata[" (before +:+ "\codeMetadata[")
    = [String.length before] /\
  METADATA_sub no_unicode no_unicode
    (before +:+ annotated_block "fig:1" "A title (short)" NL body +:+ " End.") =
  before
  +:+ REPLACEMENT ("\begin{Shaded}" +:+ body +:+ "\end{Shaded}") "fig:1"
        "A title (short)"
  +:+ METADATA_sub no_unicode no_unicode " End.".
Proof.
  intros body before.
  assert (H1 : "fig:1" <> "") by discriminate.
  assert (H2 : "A title (short)" <> "") by discriminate.
  assert (H3 : NL <> "") by discriminate.
  assert (H4 : has_char_outside no_unicode no_unicode LABEL_SET "fig:1" = false)
    by reflexivity.
  assert (H5 : has_char_outside no_unicode no_unicode CAPTION_SET
                 "A title (short)" = false) by reflexivity.
  assert (H6 : has_char_outside no_unicode no_unicode GAP_SET NL = false)
    by reflexivity.
  assert (H7 : occurrences "\end{Shaded}" (body +:+ "\end{Shaded}")
               = [String.length body]) by reflexivity.
  assert (H8 : occurrences "\codeMetadata[" (before +:+ "\codeMetadata[")
               = [String.length before]) by reflexivity.
  repeat (split; [assumption|]).
  exact (wellformed_annotation_rewritten no_unicode no_unicode before "fig:1"
           "A title (short)" NL body " End." H1 H2 H3 H4 H5 H6 H7 H8).
Defined.

Lemma annotation_parts_required_witness :
  let block := annotated_block "fig:1" "A title" "" "CODE" in
  contains_char "]" "fig:1" = false /\
  contains_char "}" "A title" = false /\
  occurrences "\codeMetadata[" ("See " +:+ block +:+ ".") = [4%nat] /\
  METADATA_sub no_unicode no_unicode ("See " +:+ block +:+ ".")
    = "See " +:+ block +:+ ".".
Proof.
  intros block.
  assert (Hl : contains_char "]" "fig:1" = false) by reflexivity.
  assert (Hc : contains_char "}" "A title" = false) by reflexivity.
  assert (Hocc : occurrences "\codeMetadata[" ("See " +:+ block +:+ ".")
                 = [4%nat]) by reflexivity.
  split; [exact Hl|]. split; [exact Hc|]. split; [exact Hocc|].
  exact (proj2 (annotation_parts_required no_unicode no_unicode "See " "fig:1"
                  "A title" "" "CODE" "." Hl Hc (or_intror (or_intror eq_refl)))
           Hocc).
Defined.
